(** * todo-mcp: a to-do REST service and its MCP adapter

    A shallow embedding of [todo_server/todo_server.ts] (the Express and
    SQLite task store) and of [todo_mcp_server/index.ts] (the adapter that
    turns tool calls into HTTP requests), with the properties of the
    specification stated over it.

    Conventions of the model:
    - JavaScript numbers are integers ([Z]); fractions, NaN and the loss of
      precision of large doubles are not represented.
    - A JavaScript value that can travel as JSON is a [json]; [undefined] is
      [None] in [jsval := option json].
    - The SQLite table is a list of rows in rowid order together with the
      AUTOINCREMENT counter; 64-bit rowid exhaustion and I/O faults of the
      storage engine are not represented.
    - The clock is an input: every request carries the two readings the code
      may take while serving it. *)

From Stdlib Require Import ZArith String Ascii List Bool Lia.
From Stdlib Require Import DecimalString.
From Stdlib Require Import Sorting.Permutation Sorting.Sorted.
Import ListNotations.

Local Open Scope string_scope.
Local Open Scope Z_scope.

Set Warnings "-register-all".

(* ================================================================= *)
(** ** JSON values and JavaScript objects *)

Inductive json : Type :=
| JNull
| JBool (b : bool)
| JNum (n : Z)
| JStr (s : string)
| JArr (items : list json)
| JObj (fields : list (string * json)).

(** [None] is JavaScript's [undefined]. *)
Definition jsval : Type := option json.

(** An object is its list of properties in insertion order.  A property
    that occurs twice (which neither [JSON.parse] nor an object literal
    produces) reads as its last occurrence, as in [JSON.parse]. *)
Definition jsobject : Type := list (string * json).

Fixpoint obj_get (k : string) (o : jsobject) : jsval :=
  match o with
  | [] => None
  | (k', v) :: o' =>
      match obj_get k o' with
      | Some w => Some w
      | None => if String.eqb k k' then Some v else None
      end
  end.

Definition obj_has (k : string) (o : jsobject) : bool :=
  match obj_get k o with Some _ => true | None => false end.

Fixpoint obj_replace (k : string) (v : json) (o : jsobject) : jsobject :=
  match o with
  | [] => []
  | (k', w) :: o' =>
      (k', if String.eqb k k' then v else w) :: obj_replace k v o'
  end.

(** [o[k] = v]: an existing property keeps its place, a new one goes last. *)
Definition obj_set (k : string) (v : json) (o : jsobject) : jsobject :=
  if obj_has k o then obj_replace k v o else (o ++ [(k, v)])%list.

(** [{...base, ...src}]: the properties of [src] written over [base]. *)
Definition obj_spread (base src : jsobject) : jsobject :=
  fold_left (fun acc kv => obj_set (fst kv) (snd kv) acc) src base.

(** A property whose value is [undefined] is dropped by [JSON.stringify]. *)
Definition opt_field (k : string) (v : jsval) : jsobject :=
  match v with Some j => [(k, j)] | None => [] end.

(* ================================================================= *)
(** ** JavaScript conversions *)

(** Decimal text of an integer: [String(n)] and [`${n}`]. *)
Definition String_of_int (n : Z) : string :=
  NilZero.string_of_int (Z.to_int n).

Fixpoint join (sep : string) (l : list string) : string :=
  match l with
  | [] => ""
  | [s] => s
  | s :: l' => s ++ sep ++ join sep l'
  end.

(** [String(v)] on a JSON value; an array is its elements joined by commas,
    [null] elements giving the empty text. *)
Fixpoint String_json (v : json) : string :=
  match v with
  | JNull => "null"
  | JBool b => if b then "true" else "false"
  | JNum n => String_of_int n
  | JStr s => s
  | JArr items =>
      join "," (map (fun i => match i with
                              | JNull => ""
                              | _ => String_json i
                              end) items)
  | JObj _ => "[object Object]"
  end.

(** [String(v)], also the text a template literal inserts for [v]. *)
Definition String_ (v : jsval) : string :=
  match v with
  | None => "undefined"
  | Some j => String_json j
  end.

(** Truthiness, as tested by [!v] and [if (v)]. *)
Definition truthy (v : jsval) : bool :=
  match v with
  | None | Some JNull => false
  | Some (JBool b) => b
  | Some (JNum n) => negb (n =? 0)
  | Some (JStr s) => negb (String.eqb s "")
  | Some (JArr _) | Some (JObj _) => true
  end.

(** [v ?? d]. *)
Definition nullish_or (v : jsval) (d : json) : json :=
  match v with
  | None | Some JNull => d
  | Some j => j
  end.

Definition dquote : ascii := "034"%char.
Definition backslash : ascii := "092"%char.

Definition hex_digit (n : nat) : ascii :=
  match n with
  | 0 => "0" | 1 => "1" | 2 => "2" | 3 => "3" | 4 => "4" | 5 => "5"
  | 6 => "6" | 7 => "7" | 8 => "8" | 9 => "9" | 10 => "a" | 11 => "b"
  | 12 => "c" | 13 => "d" | 14 => "e" | _ => "f"
  end%char%nat.

(** The escape [JSON.stringify] writes for one character of a string. *)
Definition json_escape_char (c : ascii) : string :=
  let n := nat_of_ascii c in
  if Ascii.eqb c dquote then String backslash (String dquote "")
  else if Ascii.eqb c backslash then String backslash (String backslash "")
  else if Nat.eqb n 8 then String backslash "b"
  else if Nat.eqb n 9 then String backslash "t"
  else if Nat.eqb n 10 then String backslash "n"
  else if Nat.eqb n 12 then String backslash "f"
  else if Nat.eqb n 13 then String backslash "r"
  else if Nat.ltb n 32 then
    String backslash
      ("u00" ++ String (hex_digit (Nat.div n 16))
                  (String (hex_digit (Nat.modulo n 16)) ""))
  else String c "".

Fixpoint json_escape (s : string) : string :=
  match s with
  | EmptyString => ""
  | String c s' => json_escape_char c ++ json_escape s'
  end.

(** [JSON.stringify(s)] for a string [s]: the text between double quotes. *)
Definition json_quote (s : string) : string :=
  String dquote (json_escape s ++ String dquote "").

(** [JSON.stringify(v)] for a JSON value. *)
Fixpoint JSON_stringify (v : json) : string :=
  match v with
  | JNull => "null"
  | JBool b => if b then "true" else "false"
  | JNum n => String_of_int n
  | JStr s => json_quote s
  | JArr items => "[" ++ join "," (map JSON_stringify items) ++ "]"
  | JObj fields =>
      "{" ++ join "," (map (fun kv => json_quote (fst kv) ++ ":"
                                       ++ JSON_stringify (snd kv)) fields)
          ++ "}"
  end.

(* ================================================================= *)
(** ** Exceptions *)

(** What a JavaScript computation can throw here: an [Error] built with a
    message, the [SyntaxError] of [JSON.parse] and the [TypeError] of a
    property read on [null] or [undefined] or of a call to a non-function. *)
Inductive exn : Type :=
| Error (message : string)
| SyntaxError
| TypeError.

Inductive outcome (A : Type) : Type :=
| Ok (a : A)
| Throw (e : exn).
Arguments Ok {A} a.
Arguments Throw {A} e.

Definition bind {A B : Type} (m : outcome A) (k : A -> outcome B) : outcome B :=
  match m with
  | Ok a => k a
  | Throw e => Throw e
  end.

Notation "'let*' x ':=' m 'in' k" := (bind m (fun x => k))
  (at level 10, x name, m at level 100, k at level 200).

Fixpoint map_outcome {A B : Type} (f : A -> outcome B) (l : list A)
  : outcome (list B) :=
  match l with
  | [] => Ok []
  | a :: l' =>
      let* b := f a in
      let* bs := map_outcome f l' in
      Ok (b :: bs)
  end.

(** [v.k] for a parsed JSON value [v]: a [TypeError] on [null] and
    [undefined], the property of an object, [undefined] on anything else
    (the names read in this program are own properties of no primitive or
    array). *)
Definition get_prop (v : jsval) (k : string) : outcome jsval :=
  match v with
  | None | Some JNull => Throw TypeError
  | Some (JObj o) => Ok (obj_get k o)
  | Some _ => Ok None
  end.

(* ================================================================= *)
(** ** The SQLite table [todos] *)

(** A value bound to a [?] of a statement. *)
Inductive sqlval : Type :=
| SNull
| SInt (n : Z)
| SText (s : string).

(** How the sqlite3 driver binds a JavaScript value: [undefined] leaves the
    parameter unbound, which SQLite reads as NULL; a boolean is bound as 0
    or 1; an array or an object is bound as its [toString()] text. *)
Definition bind_param (v : jsval) : sqlval :=
  match v with
  | None | Some JNull => SNull
  | Some (JBool b) => SInt (if b then 1 else 0)
  | Some (JNum n) => SInt n
  | Some (JStr s) => SText s
  | Some (JArr items) => SText (String_json (JArr items))
  | Some (JObj o) => SText (String_json (JObj o))
  end.

(** What a column declared [BOOLEAN NOT NULL] holds: the declared type gives
    it NUMERIC affinity, so it keeps an integer, or a text that is no
    number. *)
Inductive numeric : Type :=
| NInt (n : Z)
| NText (s : string).

(** One row of
    [CREATE TABLE todos (id INTEGER PRIMARY KEY AUTOINCREMENT,
       task TEXT NOT NULL, completed BOOLEAN NOT NULL DEFAULT 0,
       created_at TIMESTAMP DEFAULT CURRENT_TIMESTAMP)]. *)
Record Todo : Type := mkTodo {
  id : Z;
  task : string;
  completed : numeric;
  created_at : string
}.

(** The table in rowid order and the AUTOINCREMENT counter, the largest
    rowid ever handed out. *)
Record store : Type := mkStore {
  rows : list Todo;
  sequence : Z
}.

Definition empty_store : store := mkStore [] 0.

(** The two clock readings available while a request is served: SQLite's
    [CURRENT_TIMESTAMP] and JavaScript's [new Date().toISOString()]. *)
Record clock : Type := mkClock {
  CURRENT_TIMESTAMP : string;
  toISOString : string
}.

(** TEXT affinity: an integer is stored as its decimal text; [None] is
    NULL. *)
Definition text_affinity (v : sqlval) : option string :=
  match v with
  | SNull => None
  | SInt n => Some (String_of_int n)
  | SText s => Some s
  end.

Definition json_of_numeric (c : numeric) : json :=
  match c with
  | NInt n => JNum n
  | NText s => JStr s
  end.

(** A row as [db.get] and [db.all] return it, columns in table order. *)
Definition json_of_Todo (r : Todo) : json :=
  JObj [("id", JNum (id r)); ("task", JStr (task r));
        ("completed", json_of_numeric (completed r));
        ("created_at", JStr (created_at r))].

(** [ORDER BY created_at DESC] under the BINARY collation.  SQL leaves the
    order of rows with equal keys open; here they keep their rowid order. *)
Fixpoint insert_desc (r : Todo) (l : list Todo) : list Todo :=
  match l with
  | [] => [r]
  | x :: l' =>
      if String.leb (created_at x) (created_at r)
      then r :: x :: l'
      else x :: insert_desc r l'
  end.

Definition order_by_created_at_desc (l : list Todo) : list Todo :=
  fold_right insert_desc [] l.

(** [WHERE id = ?] with the number bound to [?]; [None] is a number that
    equals no integer. *)
Definition where_id (n : option Z) (r : Todo) : bool :=
  match n with
  | Some i => id r =? i
  | None => false
  end.

Definition constraint_failed (column : string) : exn :=
  Error ("SQLITE_CONSTRAINT: NOT NULL constraint failed: todos." ++ column).

Section System.

(** [Number(s)], the JavaScript conversion of a text to a number: [Some z]
    when the number is the integer [z], [None] when it is NaN or no integer.
    The conversion belongs to the language, not to the repository; the
    development is parametric in it. *)
Variable Number : string -> option Z.

(** The value SQLite keeps when a text is stored into a column of NUMERIC
    affinity: the number the text spells, or the text itself. *)
Variable numeric_of_text : string -> numeric.

(** NUMERIC affinity; [None] is NULL. *)
Definition numeric_affinity (v : sqlval) : option numeric :=
  match v with
  | SNull => None
  | SInt n => Some (NInt n)
  | SText s => Some (numeric_of_text s)
  end.

(** [db.all('SELECT * FROM todos ORDER BY created_at DESC')]. *)
Definition select_all (s : store) : list Todo :=
  order_by_created_at_desc (rows s).

(** [db.get('SELECT * FROM todos WHERE id = ?', [n])]. *)
Definition select_by_id (n : option Z) (s : store) : option Todo :=
  find (where_id n) (rows s).

(** [db.run('INSERT INTO todos (task, completed) VALUES (?, ?)', [t, c])]:
    the new rowid, one more than the counter, and the table with the row
    appended; a NULL in a NOT NULL column fails the statement. *)
Definition insert_todo (now : clock) (t c : sqlval) (s : store)
  : outcome (Z * store) :=
  match text_affinity t with
  | None => Throw (constraint_failed "task")
  | Some t' =>
    match numeric_affinity c with
    | None => Throw (constraint_failed "completed")
    | Some c' =>
      let lastID := sequence s + 1 in
      Ok (lastID,
          mkStore (rows s ++ [mkTodo lastID t' c' (CURRENT_TIMESTAMP now)])%list
                  lastID)
    end
  end.

(** [COALESCE(?, column)] stored back into the column. *)
Definition coalesce {A : Type} (p : option A) (old : A) : A :=
  match p with
  | Some v => v
  | None => old
  end.

Definition update_row (t c : sqlval) (r : Todo) : Todo :=
  mkTodo (id r)
         (coalesce (text_affinity t) (task r))
         (coalesce (numeric_affinity c) (completed r))
         (created_at r).

(** [db.run('UPDATE todos set task = COALESCE(?, task),
       completed = COALESCE(?, completed) WHERE id = ?', [t, c, n])]:
    the number of rows the WHERE clause selected and the new table. *)
Definition update_todo (t c : sqlval) (n : option Z) (s : store)
  : Z * store :=
  (Z.of_nat (length (filter (where_id n) (rows s))),
   mkStore (map (fun r => if where_id n r then update_row t c r else r)
                (rows s))
           (sequence s)).

(** [db.run('DELETE FROM todos WHERE id = ?', [n])]. *)
Definition delete_todo (n : option Z) (s : store) : Z * store :=
  (Z.of_nat (length (filter (where_id n) (rows s))),
   mkStore (filter (fun r => negb (where_id n r)) (rows s)) (sequence s)).

(* ----------------------------------------------------------------- *)
(** *** API logic functions *)

Definition getAllTodos (s : store) : list Todo := select_all s.

Definition getTodoById (n : option Z) (s : store) : option Todo :=
  select_by_id n s.

(** [createTodo(data)]: the INSERT, then the object
    [{id: result.lastID, ...data, completed: data.completed ?? false,
      created_at: new Date().toISOString()}].  A successful INSERT always
    reports its rowid, so the test of [result.lastID] never fires. *)
Definition createTodo (now : clock) (data : jsobject) (s : store)
  : outcome (jsobject * store) :=
  let completed_or_false :=
    nullish_or (obj_get "completed" data) (JBool false) in
  let* result := insert_todo now (bind_param (obj_get "task" data))
                                 (bind_param (Some completed_or_false)) s in
  Ok (obj_set "created_at" (JStr (toISOString now))
        (obj_set "completed" completed_or_false
           (obj_spread [("id", JNum (fst result))] data)),
      snd result).

(** [updateTodo(id, data)]: the UPDATE with [data.task] and
    [data.completed] bound as they come, then [{changes, data}]. *)
Definition updateTodo (n : option Z) (data : jsobject) (s : store)
  : (Z * jsobject) * store :=
  let result := update_todo (bind_param (obj_get "task" data))
                            (bind_param (obj_get "completed" data)) n s in
  ((fst result, data), snd result).

Definition deleteTodo (n : option Z) (s : store) : Z * store :=
  delete_todo n s.

(* ----------------------------------------------------------------- *)
(** *** API routes *)

(** A response body: JSON text, given by the value it denotes, or a text
    that is not JSON. *)
Inductive http_body : Type :=
| BodyJson (j : json)
| BodyText (s : string).

Record response : Type := mkResponse {
  status : Z;
  body : http_body
}.

(** [res.status(code).json(o)]; [res.json(o)] is the case of code 200. *)
Definition res_json (code : Z) (o : jsobject) : response :=
  mkResponse code (BodyJson (JObj o)).

(** [err.message] in a [catch]; the service's own code raises only
    [Error]s. *)
Definition message_of (e : exn) : string :=
  match e with
  | Error m => m
  | SyntaxError => "SyntaxError"
  | TypeError => "TypeError"
  end.

(** [app.get('/todos')]. *)
Definition get_todos (s : store) : response * store :=
  (res_json 200 [("message", JStr "success");
                 ("data", JArr (map json_of_Todo (getAllTodos s)))], s).

(** [app.get('/todos/:id')]; [idp] is [req.params['id']]. *)
Definition get_todo (idp : string) (s : store) : response * store :=
  match getTodoById (Number idp) s with
  | Some row =>
      (res_json 200 [("message", JStr "success");
                     ("data", json_of_Todo row)], s)
  | None =>
      (res_json 404 [("message", JStr "No to-do found with that ID.")], s)
  end.

(** [app.post('/todos')]; [body] is [req.body], a parsed JSON object. *)
Definition post_todos (now : clock) (body : jsobject) (s : store)
  : response * store :=
  if negb (truthy (obj_get "task" body)) then
    (res_json 400
       [("error", JStr "Missing 'task' field in request body.")], s)
  else
    match createTodo now body s with
    | Ok result =>
        (res_json 201 [("message", JStr "success");
                       ("data", JObj (fst result))], snd result)
    | Throw e => (res_json 500 [("error", JStr (message_of e))], s)
    end.

(** [app.put('/todos/:id')]. *)
Definition put_todo (idp : string) (body : jsobject) (s : store)
  : response * store :=
  let result := updateTodo (Number idp) body s in
  let changes := fst (fst result) in
  let s' := snd result in
  if changes =? 0 then
    (res_json 404 [("message", JStr ("No to-do found with ID " ++ idp))], s')
  else
    (res_json 200
       ([("message", JStr "success")]
        ++ opt_field "data"
             (option_map json_of_Todo (getTodoById (Number idp) s'))
        ++ [("changes", JNum changes)])%list, s').

(** [app.delete('/todos/:id')]. *)
Definition delete_todo_route (idp : string) (s : store) : response * store :=
  let result := deleteTodo (Number idp) s in
  let changes := fst result in
  let s' := snd result in
  if changes =? 0 then
    (res_json 404 [("message", JStr ("No to-do found with ID " ++ idp))], s')
  else
    (res_json 200 [("message", JStr "deleted"); ("changes", JNum changes)],
     s').

(** A request as the router sees it: the route it matches, the [id] segment
    of its path and its parsed JSON body. *)
Inductive request : Type :=
| GET_todos
| GET_todos_id (idp : string)
| POST_todos (body : jsobject)
| PUT_todos_id (idp : string) (body : jsobject)
| DELETE_todos_id (idp : string) (body : jsobject)
| Unrouted.

(** The application: one request served against the store. *)
Definition app (now : clock) (req : request) (s : store) : response * store :=
  match req with
  | GET_todos => get_todos s
  | GET_todos_id idp => get_todo idp s
  | POST_todos body => post_todos now body s
  | PUT_todos_id idp body => put_todo idp body s
  | DELETE_todos_id idp _ => delete_todo_route idp s
  | Unrouted => (mkResponse 404 (BodyText "404: Page not found"), s)
  end.

(* ================================================================= *)
(** ** The MCP adapter *)

(** The [Response] that [fetch] resolves to. *)
Record Response : Type := mkFetchResponse {
  res_status : Z;
  statusText : string;
  res_body : http_body
}.

(** [res.ok]. *)
Definition ok (res : Response) : bool :=
  (200 <=? res_status res) && (res_status res <=? 299).

(** [res.json()], and [res.text()] followed by [JSON.parse]. *)
Definition json_of_Response (res : Response) : outcome json :=
  match res_body res with
  | BodyJson j => Ok j
  | BodyText _ => Throw SyntaxError
  end.

(** The reason phrase Node sends with a status code. *)
Definition reason_phrase (code : Z) : string :=
  if code =? 200 then "OK"
  else if code =? 201 then "Created"
  else if code =? 400 then "Bad Request"
  else if code =? 404 then "Not Found"
  else if code =? 500 then "Internal Server Error"
  else "unknown".

(** [fetchHelper]: one round trip to the service at [BASE_URL]. *)
Definition fetchHelper (now : clock) (req : request) (s : store)
  : Response * store :=
  let r := app now req s in
  (mkFetchResponse (status (fst r)) (reason_phrase (status (fst r)))
                   (body (fst r)),
   snd r).

(** One entry of a tool result's [content].  Every [resource_link] carries
    the same [mimeType] and [annotations]; [annotated] tells whether a text
    entry carries [annotations]. *)
Inductive content : Type :=
| text_content (text : string) (annotated : bool)
| resource_link (uri name : string) (description : jsval).

(** What a tool handler returns: [{content: [...]}], or for [update] the
    [data] of the response as it came. *)
Inductive tool_result : Type :=
| Content (items : list content)
| Raw (data : jsval).

Definition item_uri (i : string) : string := "todo://item/" ++ i.

(** The callback of [data.map] in the [list] tool. *)
Definition link_of_item (item : json) : outcome content :=
  let* i := get_prop (Some item) "id" in
  let* t := get_prop (Some item) "task" in
  Ok (resource_link (item_uri (String_ i)) (String_ i)
        (option_map (fun j => JStr (JSON_stringify j)) t)).

(** The [list] tool on the response to [GET /todos]: [data.length] needs
    [data] to be neither [null] nor [undefined], [data.map] needs an
    array. *)
Definition list_result (res : Response) : outcome tool_result :=
  let* parsed := json_of_Response res in
  let* data := get_prop (Some parsed) "data" in
  match data with
  | Some (JArr items) =>
      let* links := map_outcome link_of_item items in
      Ok (Content
            (text_content
               ("Found " ++ String_of_int (Z.of_nat (length items))
                         ++ " items") false
             :: links))
  | _ => Throw TypeError
  end.

(** The [get] tool on the response to [GET /todos/<id>]. *)
Definition get_result (i : Z) (res : Response) : outcome tool_result :=
  let* parsed := json_of_Response res in
  let* data := get_prop (Some parsed) "data" in
  let* t := get_prop data "task" in
  Ok (Content [text_content "found todo item" false;
               resource_link (item_uri (String_of_int i)) (String_of_int i)
                             t]).

(** The status check of the [update] and [delete] tools. *)
Definition check_ok (res : Response) : outcome Response :=
  if ok res then Ok res
  else if 500 <=? res_status res then
    Throw (Error ("Bad response - " ++ String_of_int (res_status res)
                    ++ " - " ++ statusText res))
  else
    Throw (Error ("Bad request - " ++ String_of_int (res_status res)
                    ++ " - " ++ statusText res)).

(** The [update] tool on the response to its PUT. *)
Definition update_result (res : Response) : outcome tool_result :=
  let* res' := check_ok res in
  let* parsed := json_of_Response res' in
  let* data := get_prop (Some parsed) "data" in
  Ok (Raw data).

(** The [add] tool on the response to its POST; [t] is the [task] input. *)
Definition add_result (t : string) (res : Response) : outcome tool_result :=
  let* data := json_of_Response res in
  let* d := get_prop (Some data) "data" in
  let* i := get_prop d "id" in
  Ok (Content [resource_link (item_uri (String_ i)) (String_ i)
                             (Some (JStr t))]).

(** The [delete] tool on the response to its DELETE. *)
Definition delete_result (res : Response) : outcome tool_result :=
  let* res' := check_ok res in
  let* _parsed := json_of_Response res' in
  Ok (Content [text_content "deleted successfully" true]).

(** The body of the PUT of the [update] tool:
    [{task: task?.length ? task : null, completed}]. *)
Definition update_body (t : option string) (c : option bool) : jsobject :=
  ("task", match t with
           | Some txt => if (String.length txt =? 0)%nat then JNull
                         else JStr txt
           | None => JNull
           end)
  :: opt_field "completed" (option_map JBool c).

(** The tools, each one round trip followed by the shaping of its
    response. *)
Definition list_tool (now : clock) (s : store)
  : outcome tool_result * store :=
  let r := fetchHelper now GET_todos s in
  (list_result (fst r), snd r).

Definition get_tool (now : clock) (i : Z) (s : store)
  : outcome tool_result * store :=
  let r := fetchHelper now (GET_todos_id (String_of_int i)) s in
  (get_result i (fst r), snd r).

Definition update_tool (now : clock) (i : Z) (t : option string)
  (c : option bool) (s : store) : outcome tool_result * store :=
  let r := fetchHelper now
             (PUT_todos_id (String_of_int i) (update_body t c)) s in
  (update_result (fst r), snd r).

Definition add_tool (now : clock) (t : string) (s : store)
  : outcome tool_result * store :=
  let r := fetchHelper now (POST_todos [("task", JStr t)]) s in
  (add_result t (fst r), snd r).

Definition delete_tool (now : clock) (i : Z) (s : store)
  : outcome tool_result * store :=
  let r := fetchHelper now
             (DELETE_todos_id (String_of_int i) [("id", JNum i)]) s in
  (delete_result (fst r), snd r).

(** The resource [todo://all]: the text of [JSON.stringify] on the parsed
    response to [GET /todos]. *)
Definition all_resource (now : clock) (s : store) : outcome string * store :=
  let r := fetchHelper now GET_todos s in
  (let* data := json_of_Response (fst r) in Ok (JSON_stringify data), snd r).

(** What becomes of a GET whose URL is [BASE_URL] followed by the text
    [path]: the request the router of the service sees once [fetch] has
    parsed the URL (a [?] or a [#] ends the path) and Express has matched
    and decoded it, or the answer the framework gives on its own without
    reaching a route (a 400 with an HTML body for a malformed escape).  URL
    parsing and routing belong to [fetch] and to Express, not to the
    repository; the development is parametric in them. *)
Variable GET_path : string -> request + response.

(** The resource [todo://item/{id}]: the template variable [id] is written
    into the path as it comes, [`/todos/${id}`]. *)
Definition item_resource (now : clock) (id : string) (s : store)
  : outcome string * store :=
  let r := match GET_path ("/todos/" ++ id) with
           | inl req => fetchHelper now req s
           | inr res =>
               (mkFetchResponse (status res) (reason_phrase (status res))
                                (body res), s)
           end in
  (let* data := json_of_Response (fst r) in Ok (JSON_stringify data), snd r).

End System.

(* ================================================================= *)
(** ** Observations on responses and well-formed stores *)

(** The property [k] of a JSON response body. *)
Definition body_field (k : string) (r : response) : jsval :=
  match body r with
  | BodyJson (JObj o) => obj_get k o
  | _ => None
  end.

(** The property [k] of the [data] object of a JSON response body. *)
Definition data_field (k : string) (r : response) : jsval :=
  match body_field "data" r with
  | Some (JObj d) => obj_get k d
  | _ => None
  end.

(** What the schema and AUTOINCREMENT keep true of the table: [id] is a
    key, and no row has an id beyond the counter. *)
Definition wf_store (s : store) : Prop :=
  NoDup (map id (rows s)) /\ Forall (fun r => id r <= sequence s) (rows s).

(** Newest first: each row is at least as recent as every row after it. *)
Definition newest_first (l : list Todo) : Prop :=
  StronglySorted
    (fun a b => String.leb (created_at b) (created_at a) = true) l.

(** The link the [list] tool builds for a row of the table. *)
Definition link_of_Todo (r : Todo) : content :=
  resource_link (item_uri (String_of_int (id r))) (String_of_int (id r))
                (Some (JStr (json_quote (task r)))).

(** An instance of the two conversions for the closed examples: the texts
    that are plain decimal integers denote their number. *)
Definition decimal_integer (s : string) : option Z :=
  option_map Z.of_int (NilZero.int_of_string s).

Definition numeric_of_decimal (s : string) : numeric :=
  match decimal_integer s with
  | Some z => NInt z
  | None => NText s
  end.

(** An instance of the routing of a GET for the closed examples: a path
    without query, fragment or escape, read literally. *)
Definition literal_path (path : string) : request + response :=
  if String.eqb path "/todos" then inl GET_todos
  else if String.prefix "/todos/" path
       then inl (GET_todos_id
                   (String.substring 7 (String.length path - 7) path))
       else inl Unrouted.

(** A clock reading and a store used in the closed examples. *)
Definition morning : clock :=
  mkClock "2024-01-01 10:00:00" "2024-01-01T10:00:00.123Z".

Definition noon : clock :=
  mkClock "2024-01-01 12:00:00" "2024-01-01T12:00:00.000Z".

Definition milk : Todo := mkTodo 1 "buy milk" (NInt 0) "2024-01-01 10:00:00".

Definition dog : Todo := mkTodo 2 "walk dog" (NInt 1) "2024-01-01 12:00:00".

Definition sample_store : store := mkStore [milk; dog] 2.

(** A text that [JSON.stringify] copies as it is: no double quote, no
    backslash, no control character. *)
Definition plain_char (c : ascii) : bool :=
  negb (Ascii.eqb c dquote) && negb (Ascii.eqb c backslash)
  && negb (Nat.ltb (nat_of_ascii c) 32).

Fixpoint plain_text (s : string) : bool :=
  match s with
  | EmptyString => true
  | String c s' => plain_char c && plain_text s'
  end.

(* ================================================================= *)
(** ** Lemmas on objects *)

Lemma obj_get_app (k : string) (o1 o2 : jsobject) :
  obj_get k (o1 ++ o2)%list =
  match obj_get k o2 with
  | Some v => Some v
  | None => obj_get k o1
  end.
Proof.
  induction o1 as [|[k1 v1] o1 IH]; simpl.
  - destruct (obj_get k o2); reflexivity.
  - rewrite IH. destruct (obj_get k o2); reflexivity.
Qed.

Lemma obj_get_replace (k k' : string) (v : json) (o : jsobject) :
  obj_get k (obj_replace k' v o) =
  if String.eqb k k'
  then (if obj_has k o then Some v else None)
  else obj_get k o.
Proof.
  unfold obj_has.
  induction o as [|[k1 w] o IH]; simpl.
  - destruct (String.eqb k k'); reflexivity.
  - rewrite IH.
    destruct (String.eqb_spec k k') as [->|Hne].
    + destruct (obj_get k' o); [reflexivity|].
      destruct (String.eqb k' k1); reflexivity.
    + destruct (obj_get k o); [reflexivity|].
      destruct (String.eqb_spec k k1) as [->|]; [|reflexivity].
      destruct (String.eqb_spec k' k1) as [->|]; [congruence|reflexivity].
Qed.

Lemma obj_get_set_same (k : string) (v : json) (o : jsobject) :
  obj_get k (obj_set k v o) = Some v.
Proof.
  unfold obj_set. destruct (obj_has k o) eqn:H.
  - rewrite obj_get_replace, String.eqb_refl, H. reflexivity.
  - rewrite obj_get_app. simpl. rewrite String.eqb_refl. reflexivity.
Qed.

Lemma obj_get_set_other (k k' : string) (v : json) (o : jsobject) :
  k <> k' -> obj_get k (obj_set k' v o) = obj_get k o.
Proof.
  intros Hne. apply String.eqb_neq in Hne.
  unfold obj_set. destruct (obj_has k' o).
  - rewrite obj_get_replace, Hne. reflexivity.
  - rewrite obj_get_app. simpl. rewrite Hne. reflexivity.
Qed.

Lemma obj_get_set (k k' : string) (v : json) (o : jsobject) :
  obj_get k (obj_set k' v o) =
  if String.eqb k k' then Some v else obj_get k o.
Proof.
  destruct (String.eqb_spec k k') as [->|Hne].
  - apply obj_get_set_same.
  - apply obj_get_set_other, Hne.
Qed.

(** A spread reads from the source first, from the base otherwise. *)
Lemma obj_get_spread (k : string) (src base : jsobject) :
  obj_get k (obj_spread base src) =
  match obj_get k src with
  | Some v => Some v
  | None => obj_get k base
  end.
Proof.
  unfold obj_spread. revert base.
  induction src as [|[k1 v1] src IH]; intros base; simpl.
  - reflexivity.
  - rewrite IH. destruct (obj_get k src); [reflexivity|].
    rewrite obj_get_set. destruct (String.eqb k k1); reflexivity.
Qed.

(* ================================================================= *)
(** ** Lemmas on the ordering of texts and on [ORDER BY] *)

Lemma string_compare_le_trans (a b c : string) :
  String.compare a b <> Gt -> String.compare b c <> Gt ->
  String.compare a c <> Gt.
Proof.
  revert b c.
  induction a as [|x a IH]; intros [|y b] [|z c]; simpl; try congruence.
  unfold Ascii.compare.
  destruct (N.compare_spec (N_of_ascii x) (N_of_ascii y)) as [Hxy|Hxy|Hxy];
    destruct (N.compare_spec (N_of_ascii y) (N_of_ascii z)) as [Hyz|Hyz|Hyz];
    destruct (N.compare_spec (N_of_ascii x) (N_of_ascii z)) as [Hxz|Hxz|Hxz];
    try congruence; try lia.
  apply IH.
Qed.

Lemma string_leb_trans (a b c : string) :
  String.leb a b = true -> String.leb b c = true -> String.leb a c = true.
Proof.
  unfold String.leb. intros H1 H2.
  pose proof (string_compare_le_trans a b c) as H.
  destruct (String.compare a b); destruct (String.compare b c);
    destruct (String.compare a c); try discriminate; try reflexivity;
    exfalso; apply H; congruence.
Qed.

Lemma insert_desc_perm (r : Todo) (l : list Todo) :
  Permutation (insert_desc r l) (r :: l).
Proof.
  induction l as [|x l IH]; simpl.
  - apply Permutation_refl.
  - destruct (String.leb (created_at x) (created_at r)).
    + apply Permutation_refl.
    + eapply perm_trans; [apply perm_skip, IH | apply perm_swap].
Qed.

Lemma order_by_created_at_desc_perm (l : list Todo) :
  Permutation (order_by_created_at_desc l) l.
Proof.
  induction l as [|x l IH]; simpl.
  - apply perm_nil.
  - eapply perm_trans; [apply insert_desc_perm | apply perm_skip, IH].
Qed.

Lemma insert_desc_newest_first (r : Todo) (l : list Todo) :
  newest_first l -> newest_first (insert_desc r l).
Proof.
  unfold newest_first.
  induction l as [|x l IH]; intros Hs; simpl.
  - constructor; constructor.
  - apply StronglySorted_inv in Hs. destruct Hs as [Hl Hx].
    destruct (String.leb (created_at x) (created_at r)) eqn:Hle.
    + constructor.
      * constructor; assumption.
      * constructor; [assumption|].
        eapply Forall_impl; [|exact Hx].
        intros y Hy. simpl in Hy.
        eapply string_leb_trans; eassumption.
    + constructor.
      * apply IH, Hl.
      * eapply Permutation_Forall.
        -- apply Permutation_sym, insert_desc_perm.
        -- constructor; [|assumption].
           destruct (String.leb_total (created_at x) (created_at r))
             as [H|H]; [congruence|exact H].
Qed.

Lemma order_by_created_at_desc_newest_first (l : list Todo) :
  newest_first (order_by_created_at_desc l).
Proof.
  induction l as [|x l IH]; simpl.
  - constructor.
  - apply insert_desc_newest_first, IH.
Qed.

(* ================================================================= *)
(** ** Lemmas on the statements *)

Lemma store_eta (s : store) : mkStore (rows s) (sequence s) = s.
Proof. destruct s; reflexivity. Qed.

Section Statements.

Variable p : Todo -> bool.

Lemma find_none_filter (l : list Todo) :
  find p l = None -> filter p l = [].
Proof.
  induction l as [|x l IH]; simpl; [reflexivity|].
  destruct (p x); [discriminate|exact IH].
Qed.

Lemma find_none_filter_negb (l : list Todo) :
  find p l = None -> filter (fun r => negb (p r)) l = l.
Proof.
  induction l as [|x l IH]; simpl; [reflexivity|].
  destruct (p x); simpl; [discriminate|].
  intros H. rewrite IH by exact H. reflexivity.
Qed.

Lemma find_none_map (f : Todo -> Todo) (l : list Todo) :
  find p l = None -> map (fun r => if p r then f r else r) l = l.
Proof.
  induction l as [|x l IH]; simpl; [reflexivity|].
  destruct (p x); [discriminate|].
  intros H. rewrite IH by exact H. reflexivity.
Qed.

Lemma find_filter_negb (l : list Todo) :
  find p (filter (fun r => negb (p r)) l) = None.
Proof.
  induction l as [|x l IH]; simpl; [reflexivity|].
  destruct (p x) eqn:Hx; simpl; [exact IH|].
  rewrite Hx. exact IH.
Qed.

Lemma find_map_selected (f : Todo -> Todo) (l : list Todo) :
  (forall r, p (f r) = p r) ->
  find p (map (fun r => if p r then f r else r) l) = option_map f (find p l).
Proof.
  intros Hf. induction l as [|x l IH]; simpl; [reflexivity|].
  destruct (p x) eqn:Hx.
  - rewrite Hf, Hx. reflexivity.
  - rewrite Hx. exact IH.
Qed.

Lemma find_some_filter (l : list Todo) (r : Todo) :
  find p l = Some r -> (0 < length (filter p l))%nat.
Proof.
  induction l as [|x l IH]; simpl; [discriminate|].
  destruct (p x); simpl; [lia|exact IH].
Qed.

End Statements.

Lemma where_id_true (n : option Z) (r : Todo) :
  where_id n r = true -> n = Some (id r).
Proof.
  destruct n as [i|]; simpl; [|discriminate].
  intros H. apply Z.eqb_eq in H. congruence.
Qed.

(** A key selects at most one row. *)
Lemma filter_where_id_unique (n : option Z) (l : list Todo) (r : Todo) :
  NoDup (map id l) -> find (where_id n) l = Some r ->
  length (filter (where_id n) l) = 1%nat.
Proof.
  induction l as [|x l IH]; simpl; [discriminate|].
  intros Hnd Hfind. inversion Hnd as [|? ? Hnotin Hnd']; subst.
  destruct (where_id n x) eqn:Hx.
  - simpl. f_equal.
    assert (Hnone : filter (where_id n) l = []).
    { apply where_id_true in Hx. subst n.
      clear -Hnotin. induction l as [|y l IH]; simpl; [reflexivity|].
      destruct (id y =? id x) eqn:Hy.
      - exfalso. apply Hnotin. simpl. left. apply Z.eqb_eq, Hy.
      - apply IH. intros Hin. apply Hnotin. simpl. right. exact Hin. }
    rewrite Hnone. reflexivity.
  - apply IH; assumption.
Qed.

Lemma NoDup_map_filter (q : Todo -> bool) (l : list Todo) :
  NoDup (map id l) -> NoDup (map id (filter q l)).
Proof.
  induction l as [|x l IH]; simpl; [trivial|].
  intros Hnd. inversion Hnd as [|? ? Hnotin Hnd']; subst.
  destruct (q x); simpl; [|apply IH, Hnd'].
  constructor; [|apply IH, Hnd'].
  intros Hin. apply Hnotin.
  apply in_map_iff in Hin. destruct Hin as [y [Hy Hin]].
  apply filter_In in Hin. apply in_map_iff. exists y. tauto.
Qed.

(* ================================================================= *)
(** ** Properties of the service and of the adapter *)

Section Properties.

Variable Number : string -> option Z.
Variable numeric_of_text : string -> numeric.

Lemma where_id_update_row (n : option Z) (t c : sqlval) (r : Todo) :
  where_id n (update_row numeric_of_text t c r) = where_id n r.
Proof. destruct n; reflexivity. Qed.

(** The UPDATE turns the selected row into its [update_row]. *)
Lemma getTodoById_update (n : option Z) (t c : sqlval) (s : store) :
  getTodoById n (snd (update_todo numeric_of_text t c n s)) =
  option_map (update_row numeric_of_text t c) (getTodoById n s).
Proof.
  unfold getTodoById, select_by_id, update_todo. simpl.
  apply find_map_selected. intros r. apply where_id_update_row.
Qed.

(** A statement whose WHERE clause selects nothing changes nothing. *)
Lemma update_todo_none (n : option Z) (t c : sqlval) (s : store) :
  getTodoById n s = None ->
  update_todo numeric_of_text t c n s = (0, s).
Proof.
  unfold getTodoById, select_by_id, update_todo. intros H.
  rewrite find_none_filter, find_none_map by exact H.
  simpl. rewrite store_eta. reflexivity.
Qed.

Lemma delete_todo_none (n : option Z) (s : store) :
  getTodoById n s = None -> delete_todo n s = (0, s).
Proof.
  unfold getTodoById, select_by_id, delete_todo. intros H.
  rewrite find_none_filter, find_none_filter_negb by exact H.
  simpl. rewrite store_eta. reflexivity.
Qed.

(** What a PUT on an existing id does: the selected row becomes its
    [update_row], and the 200 carries that row and the number of rows the
    UPDATE selected. *)
Lemma put_todo_existing (idp : string) (data : jsobject) (s : store) (r : Todo) :
  getTodoById (Number idp) s = Some r ->
  let t := bind_param (obj_get "task" data) in
  let c := bind_param (obj_get "completed" data) in
  let r' := update_row numeric_of_text t c r in
  let s' := snd (update_todo numeric_of_text t c (Number idp) s) in
  getTodoById (Number idp) s' = Some r' /\
  put_todo Number numeric_of_text idp data s =
    (res_json 200
       [("message", JStr "success"); ("data", json_of_Todo r');
        ("changes",
         JNum (fst (update_todo numeric_of_text t c (Number idp) s)))],
     s').
Proof.
  intros Hr t c r' s'.
  assert (Hget : getTodoById (Number idp) s' = Some r').
  { subst s' r'. rewrite getTodoById_update, Hr. reflexivity. }
  assert (Hch : (fst (update_todo numeric_of_text t c (Number idp) s) =? 0)
                = false).
  { apply Z.eqb_neq. unfold update_todo. simpl.
    pose proof (find_some_filter _ _ _ Hr). lia. }
  split; [exact Hget|].
  unfold put_todo, updateTodo. cbn [fst snd]. fold t c. rewrite Hch.
  fold s'. rewrite Hget. reflexivity.
Qed.

(** C1: for an existing id, PUT /todos/:id answers 200 with the updated
    row, and a field the body omits keeps its column: without [task] the
    task text stays, without [completed] the completion flag stays (the id
    and the creation time never change). *)
Theorem put_omitted_field_unchanged
  (idp : string) (data : jsobject) (s : store) (r : Todo) :
  getTodoById (Number idp) s = Some r ->
  exists r' : Todo,
    getTodoById (Number idp)
      (snd (put_todo Number numeric_of_text idp data s)) = Some r' /\
    status (fst (put_todo Number numeric_of_text idp data s)) = 200 /\
    body_field "data" (fst (put_todo Number numeric_of_text idp data s))
      = Some (json_of_Todo r') /\
    id r' = id r /\ created_at r' = created_at r /\
    (obj_get "task" data = None -> task r' = task r) /\
    (obj_get "completed" data = None -> completed r' = completed r).
Proof.
  intros Hr.
  destruct (put_todo_existing idp data s r Hr) as [Hget Hput].
  eexists. rewrite Hput. cbn [fst snd]. split; [exact Hget|].
  repeat split.
  - intros H. simpl. rewrite H. reflexivity.
  - intros H. simpl. rewrite H. reflexivity.
Qed.

(** C3: when no row has the id, PUT /todos/:id and DELETE /todos/:id both
    answer 404 and the store after the request is the store before it. *)
Theorem put_delete_missing_id_404 (idp : string) (body : jsobject) (s : store) :
  getTodoById (Number idp) s = None ->
  (status (fst (put_todo Number numeric_of_text idp body s)) = 404 /\
   snd (put_todo Number numeric_of_text idp body s) = s) /\
  (status (fst (delete_todo_route Number idp s)) = 404 /\
   snd (delete_todo_route Number idp s) = s).
Proof.
  intros H. unfold put_todo, delete_todo_route, updateTodo, deleteTodo.
  rewrite update_todo_none, delete_todo_none by exact H.
  simpl. repeat split.
Qed.

(** C6: POST /todos with a body whose [task] is absent or the empty text
    answers 400 and leaves the store as it was, so no row is created. *)
Theorem post_without_task_400 (now : clock) (body : jsobject) (s : store) :
  obj_get "task" body = None \/ obj_get "task" body = Some (JStr "") ->
  status (fst (post_todos numeric_of_text now body s)) = 400 /\
  snd (post_todos numeric_of_text now body s) = s.
Proof.
  intros [H|H]; unfold post_todos; rewrite H; simpl; split; reflexivity.
Qed.

(** A truthy [task] binds to a text and [completed ?? false] to a number or
    text, so the INSERT of a POST that passed the guard goes through. *)
Lemma truthy_text_affinity (v : jsval) :
  truthy v = true -> exists t, text_affinity (bind_param v) = Some t.
Proof.
  destruct v as [[| | | | |]|]; simpl; try discriminate; eauto.
Qed.

Lemma nullish_numeric_affinity (v : jsval) :
  exists c,
    numeric_affinity numeric_of_text
      (bind_param (Some (nullish_or v (JBool false)))) = Some c.
Proof.
  destruct v as [[| | | | |]|]; simpl; eauto.
Qed.

(** What a POST that passed the guard does: one row appended under the id
    after the counter, and a 201 whose [data] is built from the request. *)
Lemma post_todos_created (now : clock) (body : jsobject) (s : store) :
  truthy (obj_get "task" body) = true ->
  exists t c,
    text_affinity (bind_param (obj_get "task" body)) = Some t /\
    numeric_affinity numeric_of_text
      (bind_param (Some (nullish_or (obj_get "completed" body)
                                    (JBool false)))) = Some c /\
    post_todos numeric_of_text now body s =
    (res_json 201
       [("message", JStr "success");
        ("data",
         JObj (obj_set "created_at" (JStr (toISOString now))
                 (obj_set "completed"
                    (nullish_or (obj_get "completed" body) (JBool false))
                    (obj_spread [("id", JNum (sequence s + 1))] body))))],
     mkStore (rows s ++ [mkTodo (sequence s + 1) t c
                                (CURRENT_TIMESTAMP now)])%list
             (sequence s + 1)).
Proof.
  intros Ht.
  destruct (truthy_text_affinity _ Ht) as [t Htext].
  destruct (nullish_numeric_affinity (obj_get "completed" body)) as [c Hnum].
  exists t, c. repeat split; try assumption.
  unfold post_todos, createTodo, insert_todo.
  rewrite Ht, Htext, Hnum. reflexivity.
Qed.

Lemma find_app_fresh (q : Todo -> bool) (l : list Todo) (x : Todo) :
  (forall y, In y l -> q y = false) -> q x = true ->
  find q (l ++ [x])%list = Some x.
Proof.
  intros Hl Hx. induction l as [|y l IH]; simpl.
  - rewrite Hx. reflexivity.
  - rewrite (Hl y) by (left; reflexivity).
    apply IH. intros z Hz. apply Hl. right. exact Hz.
Qed.

(** The row a POST appended is the one its id selects. *)
Lemma getTodoById_appended (s : store) (t : string) (c : numeric)
  (ts : string) :
  wf_store s ->
  getTodoById (Some (sequence s + 1))
    (mkStore (rows s ++ [mkTodo (sequence s + 1) t c ts])%list
             (sequence s + 1))
  = Some (mkTodo (sequence s + 1) t c ts).
Proof.
  intros [_ Hle]. unfold getTodoById, select_by_id. simpl.
  apply find_app_fresh.
  - intros y Hy. rewrite Forall_forall in Hle. specialize (Hle y Hy).
    simpl. apply Z.eqb_neq. lia.
  - simpl. apply Z.eqb_refl.
Qed.

(** C2, as the code behaves: for a non-empty task text [T] and a
    well-formed store, POST /todos with [{task: T}] answers 201 with the new
    id, and GET /todos/:id with that id answers 200 with a row whose [task]
    is [T]; its [completed], though, is the integer 0 under which the table
    keeps [false], not the [false] that the type [Todo] declares and that
    the 201 carries for the same row: the row goes out undecoded. *)
Theorem add_then_get (now : clock) (T : string) (s : store) (idp : string) :
  wf_store s -> T <> "" -> Number idp = Some (sequence s + 1) ->
  let added := post_todos numeric_of_text now [("task", JStr T)] s in
  let got := get_todo Number idp (snd added) in
  status (fst added) = 201 /\
  data_field "id" (fst added) = Some (JNum (sequence s + 1)) /\
  status (fst got) = 200 /\
  data_field "task" (fst got) = Some (JStr T) /\
  data_field "completed" (fst got) = Some (JNum 0).
Proof.
  intros Hwf HT Hid added got.
  assert (Ht : truthy (obj_get "task" [("task", JStr T)]) = true).
  { simpl. apply negb_true_iff, String.eqb_neq, HT. }
  destruct (post_todos_created now _ s Ht) as [t [c [Htext [Hnum Hpost]]]].
  simpl in Htext, Hnum. injection Htext as <-. injection Hnum as <-.
  subst got added. rewrite Hpost. cbn [fst snd].
  unfold get_todo. rewrite Hid, getTodoById_appended by exact Hwf.
  repeat split.
Qed.

(** C9: the 201 of POST /todos is built from the request.  Its [data] is
    [{id: lastID, ...body, completed: body.completed ?? false,
      created_at: <ISO reading of the JavaScript clock>}], so an [id] in the
    body takes the place of the row id, while the stored row carries the
    row id and SQLite's CURRENT_TIMESTAMP; whenever the body's [id] is not
    the row id, or the two clock readings differ as texts, the 201 [data]
    is not the [data] of the GET /todos/:id that follows. *)
Theorem post_response_synthesized
  (now : clock) (data : jsobject) (s : store) (idp : string) :
  truthy (obj_get "task" data) = true ->
  wf_store s -> Number idp = Some (sequence s + 1) ->
  let lastID := sequence s + 1 in
  let created := post_todos numeric_of_text now data s in
  let got := get_todo Number idp (snd created) in
  status (fst created) = 201 /\
  body_field "data" (fst created) =
    Some (JObj (obj_set "created_at" (JStr (toISOString now))
                  (obj_set "completed"
                     (nullish_or (obj_get "completed" data) (JBool false))
                     (obj_spread [("id", JNum lastID)] data)))) /\
  data_field "id" (fst created) =
    Some (match obj_get "id" data with Some v => v | None => JNum lastID end)
  /\
  data_field "created_at" (fst created) = Some (JStr (toISOString now)) /\
  status (fst got) = 200 /\
  data_field "id" (fst got) = Some (JNum lastID) /\
  data_field "created_at" (fst got) = Some (JStr (CURRENT_TIMESTAMP now)) /\
  ((exists v, obj_get "id" data = Some v /\ v <> JNum lastID) \/
   toISOString now <> CURRENT_TIMESTAMP now ->
   body_field "data" (fst created) <> body_field "data" (fst got)).
Proof.
  intros Ht Hwf Hid lastID created got.
  destruct (post_todos_created now data s Ht) as [t [c [_ [_ Hpost]]]].
  subst got created. rewrite Hpost. cbn [fst snd].
  unfold get_todo. rewrite Hid, getTodoById_appended by exact Hwf.
  fold lastID.
  assert (Hdid : forall o, obj_get "id"
            (obj_set "created_at" (JStr (toISOString now))
               (obj_set "completed" o
                  (obj_spread [("id", JNum lastID)] data)))
          = Some (match obj_get "id" data with
                  | Some v => v
                  | None => JNum lastID
                  end)).
  { intros o. rewrite !obj_get_set, obj_get_spread. simpl.
    destruct (obj_get "id" data); reflexivity. }
  assert (Hdts : forall o b, obj_get "created_at"
            (obj_set "created_at" (JStr (toISOString now)) (obj_set "completed" o b))
          = Some (JStr (toISOString now))).
  { intros o b. apply obj_get_set_same. }
  unfold data_field, body_field. cbn [fst snd body res_json obj_get String.eqb
    Ascii.eqb Bool.eqb].
  repeat split; try apply Hdid; try apply Hdts.
  intros Hdiff Heq. injection Heq as Heq.
  destruct Hdiff as [[v [Hv Hne]]|Hne].
  - apply (f_equal (obj_get "id")) in Heq.
    rewrite Hdid, Hv in Heq. simpl in Heq. congruence.
  - apply (f_equal (obj_get "created_at")) in Heq.
    rewrite Hdts in Heq. simpl in Heq. congruence.
Qed.

(** C7 (amended): for an existing id in a well-formed store, the first
    DELETE /todos/:id answers 200 with [{message: 'deleted', changes: 1}];
    the second deletes nothing ([deleteTodo] reports 0 changes), answers 404
    with a body that holds only a message and no [changes], and leaves the
    store as the first left it. *)
Theorem delete_twice (idp : string) (s : store) (r : Todo) :
  wf_store s -> getTodoById (Number idp) s = Some r ->
  let first := delete_todo_route Number idp s in
  let second := delete_todo_route Number idp (snd first) in
  fst first =
    res_json 200 [("message", JStr "deleted"); ("changes", JNum 1)] /\
  fst (deleteTodo (Number idp) (snd first)) = 0 /\
  fst second =
    res_json 404 [("message", JStr ("No to-do found with ID " ++ idp))] /\
  body_field "changes" (fst second) = None /\
  snd second = snd first.
Proof.
  intros [Hnd _] Hr first second.
  assert (H1 : deleteTodo (Number idp) s =
               (1, mkStore (filter (fun x => negb (where_id (Number idp) x))
                                   (rows s)) (sequence s))).
  { unfold deleteTodo, delete_todo.
    rewrite (filter_where_id_unique _ _ _ Hnd Hr). reflexivity. }
  assert (Hgone : getTodoById (Number idp)
            (mkStore (filter (fun x => negb (where_id (Number idp) x))
                             (rows s)) (sequence s)) = None).
  { unfold getTodoById, select_by_id. simpl. apply find_filter_negb. }
  assert (Hfirst : first =
            (res_json 200 [("message", JStr "deleted"); ("changes", JNum 1)],
             mkStore (filter (fun x => negb (where_id (Number idp) x))
                             (rows s)) (sequence s))).
  { subst first. unfold delete_todo_route. rewrite H1. reflexivity. }
  subst second. rewrite Hfirst. cbn [fst snd].
  unfold delete_todo_route, deleteTodo.
  rewrite (delete_todo_none _ _ Hgone). cbn.
  repeat split.
Qed.

(** X3: after a DELETE /todos/:id, whatever it answered, GET /todos/:id
    with that id answers 404. *)
Lemma delete_then_get_404 (idp : string) (s : store) :
  status (fst (get_todo Number idp (snd (delete_todo_route Number idp s))))
  = 404.
Proof.
  assert (Hs : snd (delete_todo_route Number idp s) =
               snd (delete_todo (Number idp) s)).
  { unfold delete_todo_route, deleteTodo. cbn [fst snd].
    destruct (_ =? 0); reflexivity. }
  rewrite Hs. unfold get_todo, getTodoById, select_by_id, delete_todo.
  cbn [fst snd rows]. rewrite find_filter_negb. reflexivity.
Qed.

(** The UPDATE keeps every id where it is. *)
Lemma map_id_update (n : option Z) (t c : sqlval) (l : list Todo) :
  map id (map (fun r => if where_id n r
                        then update_row numeric_of_text t c r else r) l)
  = map id l.
Proof.
  induction l as [|x l IH]; simpl; [reflexivity|].
  rewrite IH. destruct (where_id n x); reflexivity.
Qed.

Lemma wf_empty_store : wf_store empty_store.
Proof. split; constructor. Qed.

(** Serving a request keeps the store well-formed. *)
Lemma app_preserves_wf (now : clock) (req : request) (s : store) :
  wf_store s -> wf_store (snd (app Number numeric_of_text now req s)).
Proof.
  intros Hwf. destruct req as [|idp|data|idp data|idp data|]; simpl;
    try exact Hwf.
  - unfold get_todo. destruct (getTodoById _ _); exact Hwf.
  - destruct (truthy (obj_get "task" data)) eqn:Ht.
    + destruct (post_todos_created now data s Ht) as [t [c [_ [_ Hpost]]]].
      rewrite Hpost. destruct Hwf as [Hnd Hle]. split; simpl.
      * rewrite map_app. simpl.
        eapply Permutation_NoDup;
          [apply Permutation_cons_append|].
        constructor; [|exact Hnd].
        intros Hin. apply in_map_iff in Hin. destruct Hin as [y [Hy Hin]].
        rewrite Forall_forall in Hle. specialize (Hle y Hin). lia.
      * apply Forall_app. split.
        -- eapply Forall_impl; [|exact Hle]. simpl. intros; lia.
        -- constructor; [simpl; lia|constructor].
    + unfold post_todos. rewrite Ht. exact Hwf.
  - assert (Hs : snd (put_todo Number numeric_of_text idp data s) =
                 snd (update_todo numeric_of_text
                        (bind_param (obj_get "task" data))
                        (bind_param (obj_get "completed" data))
                        (Number idp) s)).
    { unfold put_todo, updateTodo. cbn [fst snd].
      destruct (_ =? 0); reflexivity. }
    rewrite Hs. destruct Hwf as [Hnd Hle]. split; simpl.
    + rewrite map_id_update. exact Hnd.
    + rewrite Forall_forall in *. intros y Hy.
      apply in_map_iff in Hy. destruct Hy as [x [Hx Hin]].
      specialize (Hle x Hin).
      destruct (where_id (Number idp) x); subst y; simpl; exact Hle.
  - assert (Hs : snd (delete_todo_route Number idp s) =
                 snd (delete_todo (Number idp) s)).
    { unfold delete_todo_route, deleteTodo. cbn [fst snd].
      destruct (_ =? 0); reflexivity. }
    rewrite Hs. destruct Hwf as [Hnd Hle]. split; simpl.
    + apply NoDup_map_filter, Hnd.
    + rewrite Forall_forall in *. intros y Hy.
      apply filter_In in Hy. apply Hle. tauto.
Qed.

(* ----------------------------------------------------------------- *)
(** *** The adapter *)

Lemma link_of_item_Todo (r : Todo) :
  link_of_item (json_of_Todo r) = Ok (link_of_Todo r).
Proof. reflexivity. Qed.

Lemma map_outcome_links (l : list Todo) :
  map_outcome link_of_item (map json_of_Todo l) = Ok (map link_of_Todo l).
Proof.
  induction l as [|r l IH]; cbn [map map_outcome]; [reflexivity|].
  rewrite link_of_item_Todo. cbn [bind]. rewrite IH. reflexivity.
Qed.

(** The [list] tool against the service: the count, then the link of each
    row in the order of [getAllTodos]; the store is only read. *)
Lemma list_tool_content (now : clock) (s : store) :
  list_tool Number numeric_of_text now s =
  (Ok (Content
         (text_content
            ("Found " ++ String_of_int (Z.of_nat (length (rows s)))
                      ++ " items") false
          :: map link_of_Todo (getAllTodos s))), s).
Proof.
  unfold list_tool, fetchHelper, list_result.
  cbn [app get_todos res_json fst snd body status res_body json_of_Response
       bind get_prop obj_get String.eqb Ascii.eqb Bool.eqb].
  rewrite map_outcome_links. cbn [bind].
  rewrite length_map. unfold getAllTodos, select_all.
  rewrite (Permutation_length (order_by_created_at_desc_perm (rows s))).
  reflexivity.
Qed.


(** C10: for every store, GET /todos answers 200 with all the rows of the
    table, newest first by [created_at]; the [list] tool lists its links in
    that order and the resource [todo://all] is the JSON text of that
    body. *)
Theorem get_todos_newest_first (now : clock) (s : store) :
  let l := getAllTodos s in
  Permutation l (rows s) /\
  newest_first l /\
  get_todos s =
    (res_json 200 [("message", JStr "success");
                   ("data", JArr (map json_of_Todo l))], s) /\
  fst (list_tool Number numeric_of_text now s) =
    Ok (Content
          (text_content
             ("Found " ++ String_of_int (Z.of_nat (length (rows s)))
                       ++ " items") false
           :: map link_of_Todo l)) /\
  fst (all_resource Number numeric_of_text now s) =
    Ok (JSON_stringify
          (JObj [("message", JStr "success");
                 ("data", JArr (map json_of_Todo l))])).
Proof.
  intros l. subst l.
  split; [apply order_by_created_at_desc_perm|].
  split; [apply order_by_created_at_desc_newest_first|].
  split; [reflexivity|].
  split; [rewrite list_tool_content; reflexivity|reflexivity].
Qed.

(** The status check of [update] and [delete] on a response that is not
    2xx. *)
Lemma check_ok_not_ok (res : Response) :
  ok res = false ->
  check_ok res =
  Throw (Error ((if 500 <=? res_status res
                 then "Bad response - " else "Bad request - ")
                ++ String_of_int (res_status res) ++ " - "
                ++ statusText res)).
Proof.
  intros H. unfold check_ok. rewrite H.
  destruct (500 <=? res_status res); reflexivity.
Qed.

(** The tools without a status check throw no [Error] of their own. *)
Lemma link_of_item_not_Error (x : json) (m : string) :
  link_of_item x <> Throw (Error m).
Proof.
  destruct x; simpl; discriminate.
Qed.

Lemma links_not_Error (items : list json) (m : string) :
  map_outcome link_of_item items <> Throw (Error m).
Proof.
  induction items as [|x items IH]; simpl; [discriminate|].
  pose proof (link_of_item_not_Error x m) as Hx.
  destruct (link_of_item x) as [c|e]; simpl; [|congruence].
  destruct (map_outcome link_of_item items) as [cs|e]; simpl;
    [discriminate|congruence].
Qed.

Lemma list_result_not_Error (res : Response) (m : string) :
  list_result res <> Throw (Error m).
Proof.
  unfold list_result, json_of_Response.
  destruct (res_body res) as [j|txt]; simpl; [|discriminate].
  destruct j as [| | | | |o]; simpl; try discriminate.
  destruct (obj_get "data" o) as [[| | | |items|]|]; simpl; try discriminate.
  pose proof (links_not_Error items m) as Hl.
  destruct (map_outcome link_of_item items); simpl; [discriminate|congruence].
Qed.

Lemma get_result_not_Error (i : Z) (res : Response) (m : string) :
  get_result i res <> Throw (Error m).
Proof.
  unfold get_result, json_of_Response.
  destruct (res_body res) as [j|txt]; simpl; [|discriminate].
  destruct j as [| | | | |o]; simpl; try discriminate.
  destruct (obj_get "data" o) as [[]|]; simpl; discriminate.
Qed.

Lemma add_result_not_Error (t : string) (res : Response) (m : string) :
  add_result t res <> Throw (Error m).
Proof.
  unfold add_result, json_of_Response.
  destruct (res_body res) as [j|txt]; simpl; [|discriminate].
  destruct j as [| | | | |o]; simpl; try discriminate.
  destruct (obj_get "data" o) as [[]|]; simpl; discriminate.
Qed.

(** C4 (amended): on a response that is not 2xx, the [update] and [delete]
    tools throw an error whose message carries a kind, the status code and
    the status text; the kind is "Bad response" from 500 on and "Bad
    request" from 400 to 499.  The [list], [get] and [add] tools never look at the status and
    never throw such an error: a body that is not JSON gives the parse
    failure, and a JSON body is shaped as it would be under a 200, which
    for an object without [data] is a type error. *)
Theorem adapter_failures (res : Response) (i : Z) (t : string) :
  ok res = false ->
  (exists kind : string,
     update_result res =
       Throw (Error (kind ++ " - " ++ String_of_int (res_status res)
                          ++ " - " ++ statusText res)) /\
     delete_result res =
       Throw (Error (kind ++ " - " ++ String_of_int (res_status res)
                          ++ " - " ++ statusText res)) /\
     (500 <= res_status res -> kind = "Bad response") /\
     (400 <= res_status res <= 499 -> kind = "Bad request")) /\
  (forall m, list_result res <> Throw (Error m) /\
             get_result i res <> Throw (Error m) /\
             add_result t res <> Throw (Error m)) /\
  (forall txt, res_body res = BodyText txt ->
     list_result res = Throw SyntaxError /\
     get_result i res = Throw SyntaxError /\
     add_result t res = Throw SyntaxError) /\
  (forall j, res_body res = BodyJson j ->
     let res200 := mkFetchResponse 200 "OK" (BodyJson j) in
     list_result res = list_result res200 /\
     get_result i res = get_result i res200 /\
     add_result t res = add_result t res200) /\
  (forall o, res_body res = BodyJson (JObj o) -> obj_get "data" o = None ->
     list_result res = Throw TypeError /\
     get_result i res = Throw TypeError /\
     add_result t res = Throw TypeError).
Proof.
  intros Hok.
  split; [|split; [|split; [|split]]].
  - exists (if 500 <=? res_status res then "Bad response" else "Bad request").
    unfold update_result, delete_result.
    rewrite (check_ok_not_ok res Hok).
    destruct (500 <=? res_status res) eqn:H; repeat split;
      try reflexivity; intros H'.
    + apply Z.leb_le in H. lia.
    + apply Z.leb_gt in H. lia.
  - intros m. split; [apply list_result_not_Error|].
    split; [apply get_result_not_Error|apply add_result_not_Error].
  - intros txt H. unfold list_result, get_result, add_result,
      json_of_Response. rewrite H. repeat split.
  - intros j H res200. unfold list_result, get_result, add_result,
      json_of_Response. subst res200. rewrite H. repeat split.
  - intros o H Hnone. unfold list_result, get_result, add_result,
      json_of_Response. rewrite H. simpl. rewrite Hnone. repeat split.
Qed.

(** C5: the [update] tool called with the empty text as [task] does what
    it does without [task]: it sends the same request.  On an existing id
    the stored task text stays while a supplied [completed] is stored (as 1
    or 0), and the tool returns the row as the service answered it. *)
Theorem update_tool_empty_task
  (now : clock) (i : Z) (c : option bool) (s : store) :
  update_tool Number numeric_of_text now i (Some "") c s =
    update_tool Number numeric_of_text now i None c s /\
  forall r : Todo,
    Number (String_of_int i) = Some i ->
    getTodoById (Some i) s = Some r ->
    exists r' : Todo,
      getTodoById (Some i)
        (snd (update_tool Number numeric_of_text now i (Some "") c s))
        = Some r' /\
      fst (update_tool Number numeric_of_text now i (Some "") c s)
        = Ok (Raw (Some (json_of_Todo r'))) /\
      task r' = task r /\
      completed r' = match c with
                     | Some b => NInt (if b then 1 else 0)
                     | None => completed r
                     end.
Proof.
  split; [reflexivity|]. intros r Hnum Hr.
  rewrite <- Hnum in Hr.
  destruct (put_todo_existing (String_of_int i) (update_body (Some "") c)
              s r Hr) as [Hget Hput].
  rewrite Hnum in Hget, Hput.
  eexists. unfold update_tool, fetchHelper. simpl app.
  rewrite Hput. cbn [fst snd]. split; [exact Hget|].
  split; [reflexivity|].
  destruct c as [[|]|]; split; reflexivity.
Qed.

End Properties.

(* ================================================================= *)
(** ** Closed examples *)

(** The sample store is what two POSTs leave behind an empty table. *)
Lemma sample_store_reached :
  snd (app decimal_integer numeric_of_decimal noon
         (POST_todos [("task", JStr "walk dog"); ("completed", JBool true)])
         (snd (app decimal_integer numeric_of_decimal morning
                 (POST_todos [("task", JStr "buy milk")]) empty_store)))
  = sample_store.
Proof. reflexivity. Qed.

Lemma wf_sample_store : wf_store sample_store.
Proof.
  rewrite <- sample_store_reached.
  do 2 apply app_preserves_wf. apply wf_empty_store.
Qed.

(** The end-to-end scenario of the specification, as the service answers
    it: the rows read back from the table carry [completed] as 0 or 1. *)
Example end_to_end_scenario :
  let serve := app decimal_integer numeric_of_decimal in
  let s0 := empty_store in
  let r1 := serve morning (POST_todos [("task", JStr "buy milk")]) s0 in
  let r2 := serve noon (GET_todos_id "1") (snd r1) in
  let r3 := serve noon (PUT_todos_id "1" [("completed", JBool true)])
                  (snd r2) in
  let r4 := serve noon (DELETE_todos_id "1" []) (snd r3) in
  let r5 := serve noon (GET_todos_id "1") (snd r4) in
  fst r1 = res_json 201
             [("message", JStr "success");
              ("data", JObj [("id", JNum 1); ("task", JStr "buy milk");
                             ("completed", JBool false);
                             ("created_at",
                              JStr "2024-01-01T10:00:00.123Z")])] /\
  fst r2 = res_json 200
             [("message", JStr "success");
              ("data", JObj [("id", JNum 1); ("task", JStr "buy milk");
                             ("completed", JNum 0);
                             ("created_at", JStr "2024-01-01 10:00:00")])] /\
  fst r3 = res_json 200
             [("message", JStr "success");
              ("data", JObj [("id", JNum 1); ("task", JStr "buy milk");
                             ("completed", JNum 1);
                             ("created_at", JStr "2024-01-01 10:00:00")]);
              ("changes", JNum 1)] /\
  fst r4 = res_json 200 [("message", JStr "deleted"); ("changes", JNum 1)] /\
  status (fst r5) = 404.
Proof. repeat split. Qed.

(** C1, on the sample store: a PUT with only [completed] keeps the task
    text of row 1, a PUT with only [task] keeps its completion flag. *)
Lemma put_omitted_field_unchanged_witness :
  getTodoById (decimal_integer "1") sample_store = Some milk /\
  (exists r',
     getTodoById (decimal_integer "1")
       (snd (put_todo decimal_integer numeric_of_decimal "1"
               [("completed", JBool true)] sample_store)) = Some r' /\
     task r' = "buy milk") /\
  (exists r',
     getTodoById (decimal_integer "1")
       (snd (put_todo decimal_integer numeric_of_decimal "1"
               [("task", JStr "buy oat milk")] sample_store)) = Some r' /\
     completed r' = NInt 0).
Proof.
  split; [reflexivity|]. split.
  - destruct (put_omitted_field_unchanged decimal_integer numeric_of_decimal
                "1" [("completed", JBool true)] sample_store milk eq_refl)
      as [r' [Hget [_ [_ [_ [_ [Htask _]]]]]]].
    exists r'. split; [exact Hget|]. apply Htask. reflexivity.
  - destruct (put_omitted_field_unchanged decimal_integer numeric_of_decimal
                "1" [("task", JStr "buy oat milk")] sample_store milk eq_refl)
      as [r' [Hget [_ [_ [_ [_ [_ Hcompleted]]]]]]].
    exists r'. split; [exact Hget|]. apply Hcompleted. reflexivity.
Defined.

(** C2, on the empty store. *)
Lemma add_then_get_witness :
  wf_store empty_store /\ "buy milk" <> "" /\
  decimal_integer "1" = Some (sequence empty_store + 1) /\
  data_field "completed"
    (fst (get_todo decimal_integer "1"
            (snd (post_todos numeric_of_decimal morning
                    [("task", JStr "buy milk")] empty_store))))
  = Some (JNum 0).
Proof.
  split; [apply wf_empty_store|].
  split; [discriminate|].
  split; [reflexivity|].
  apply (add_then_get decimal_integer numeric_of_decimal morning "buy milk"
           empty_store "1");
    [apply wf_empty_store | discriminate | reflexivity].
Defined.

(** C2 at a failing input: after POST /todos with [{task: 'buy milk'}] on
    the empty store, the row of GET /todos/1 has [completed] 0, not
    [false]. *)
Lemma add_then_get_completed_not_false :
  let added := post_todos numeric_of_decimal morning
                 [("task", JStr "buy milk")] empty_store in
  let got := get_todo decimal_integer "1" (snd added) in
  data_field "id" (fst added) = Some (JNum 1) /\
  ~ (data_field "task" (fst got) = Some (JStr "buy milk") /\
     data_field "completed" (fst got) = Some (JBool false)).
Proof.
  split; [reflexivity|]. intros [_ H]. vm_compute in H. discriminate H.
Qed.

(** C3, on the sample store: no row has id 7. *)
Lemma put_delete_missing_id_404_witness :
  getTodoById (decimal_integer "7") sample_store = None /\
  snd (put_todo decimal_integer numeric_of_decimal "7"
         [("task", JStr "x"); ("completed", JBool true)] sample_store)
  = sample_store /\
  status (fst (delete_todo_route decimal_integer "7" sample_store)) = 404.
Proof.
  split; [reflexivity|].
  destruct (put_delete_missing_id_404 decimal_integer numeric_of_decimal "7"
              [("task", JStr "x"); ("completed", JBool true)] sample_store
              eq_refl) as [[_ Hput] [Hdel _]].
  split; [exact Hput|exact Hdel].
Defined.

(** C4, on the 404 the service sends for a missing id. *)
Lemma adapter_failures_witness :
  let res := mkFetchResponse 404 "Not Found"
               (BodyJson (JObj [("message",
                                 JStr "No to-do found with ID 7")])) in
  ok res = false /\
  update_result res = Throw (Error "Bad request - 404 - Not Found") /\
  list_result res = Throw TypeError.
Proof.
  intros res. split; [reflexivity|].
  destruct (adapter_failures res 7 "x" eq_refl)
    as [[kind [Hupdate [_ [_ H4xx]]]] [_ [_ [_ Hshape]]]].
  split.
  - rewrite Hupdate, H4xx; [reflexivity|simpl; lia].
  - apply (Hshape [("message", JStr "No to-do found with ID 7")]);
      reflexivity.
Defined.

(** C4 as stated fails: on the 404 of a missing id the [get] tool fails
    with a type error, not with the parse failure. *)
Lemma get_tool_404_not_parse_failure :
  let res := fst (fetchHelper decimal_integer numeric_of_decimal noon
                    (GET_todos_id "7") sample_store) in
  ok res = false /\ res_status res = 404 /\
  ~ get_result 7 res = Throw SyntaxError.
Proof.
  split; [reflexivity|]. split; [reflexivity|].
  vm_compute. discriminate.
Qed.

(** C5, on the sample store. *)
Lemma update_tool_empty_task_witness :
  decimal_integer (String_of_int 1) = Some 1 /\
  getTodoById (Some 1) sample_store = Some milk /\
  exists r',
    getTodoById (Some 1)
      (snd (update_tool decimal_integer numeric_of_decimal noon 1 (Some "")
              (Some true) sample_store)) = Some r' /\
    task r' = "buy milk" /\ completed r' = NInt 1.
Proof.
  split; [reflexivity|]. split; [reflexivity|].
  destruct (update_tool_empty_task decimal_integer numeric_of_decimal noon 1
              (Some true) sample_store) as [_ H].
  destruct (H milk eq_refl eq_refl) as [r' [Hget [_ [Htask Hcompleted]]]].
  exists r'. split; [exact Hget|]. split; [exact Htask|exact Hcompleted].
Defined.

(** C6, for a body without [task] and for a body whose [task] is empty. *)
Lemma post_without_task_400_witness :
  (obj_get "task" [("completed", JBool true)] = None /\
   status (fst (post_todos numeric_of_decimal morning
                  [("completed", JBool true)] sample_store)) = 400) /\
  (obj_get "task" [("task", JStr "")] = Some (JStr "") /\
   snd (post_todos numeric_of_decimal morning [("task", JStr "")]
          sample_store) = sample_store).
Proof.
  split; (split; [reflexivity|]).
  - apply (post_without_task_400 numeric_of_decimal morning
             [("completed", JBool true)] sample_store).
    left. reflexivity.
  - apply (post_without_task_400 numeric_of_decimal morning
             [("task", JStr "")] sample_store).
    right. reflexivity.
Defined.

(** C7, on the sample store. *)
Lemma delete_twice_witness :
  wf_store sample_store /\
  getTodoById (decimal_integer "1") sample_store = Some milk /\
  fst (delete_todo_route decimal_integer "1"
         (snd (delete_todo_route decimal_integer "1" sample_store)))
  = res_json 404 [("message", JStr "No to-do found with ID 1")].
Proof.
  split; [apply wf_sample_store|]. split; [reflexivity|].
  apply (delete_twice decimal_integer "1" sample_store milk wf_sample_store
           eq_refl).
Defined.

(** C7 as stated fails: the 404 of the second DELETE has no [changes]. *)
Lemma second_delete_has_no_changes :
  let first := delete_todo_route decimal_integer "1" sample_store in
  let second := delete_todo_route decimal_integer "1" (snd first) in
  getTodoById (decimal_integer "1") sample_store = Some milk /\
  ~ (status (fst first) = 200 /\
     body_field "changes" (fst first) = Some (JNum 1) /\
     status (fst second) = 404 /\
     body_field "changes" (fst second) = Some (JNum 0)).
Proof.
  split; [reflexivity|]. intros [_ [_ [_ H]]]. vm_compute in H.
  discriminate H.
Qed.


(** C9, for a body that brings an [id] of its own. *)
Lemma post_response_synthesized_witness :
  truthy (obj_get "task" [("id", JNum 99); ("task", JStr "buy milk")])
    = true /\
  wf_store empty_store /\
  decimal_integer "1" = Some (sequence empty_store + 1) /\
  data_field "id"
    (fst (post_todos numeric_of_decimal morning
            [("id", JNum 99); ("task", JStr "buy milk")] empty_store))
  = Some (JNum 99) /\
  data_field "id"
    (fst (get_todo decimal_integer "1"
            (snd (post_todos numeric_of_decimal morning
                    [("id", JNum 99); ("task", JStr "buy milk")]
                    empty_store))))
  = Some (JNum 1).
Proof.
  split; [reflexivity|]. split; [apply wf_empty_store|].
  split; [reflexivity|].
  destruct (post_response_synthesized decimal_integer numeric_of_decimal
              morning [("id", JNum 99); ("task", JStr "buy milk")]
              empty_store "1" eq_refl wf_empty_store eq_refl)
    as [_ [_ [Hid [_ [_ [Hgot _]]]]]].
  split; [exact Hid|exact Hgot].
Defined.

(* ================================================================= *)
(** ** Further properties of the service *)

Lemma find_app_one (q : Todo -> bool) (l : list Todo) (x : Todo) :
  find q (l ++ [x])%list =
  match find q l with
  | Some y => Some y
  | None => if q x then Some x else None
  end.
Proof.
  induction l as [|y l IH]; simpl; [reflexivity|].
  destruct (q y); [reflexivity|exact IH].
Qed.

(** In a table whose ids are distinct, an id finds its row. *)
Lemma find_where_id_In (l : list Todo) (r : Todo) :
  NoDup (map id l) -> In r l -> find (where_id (Some (id r))) l = Some r.
Proof.
  induction l as [|x l IH]; simpl; [tauto|].
  intros Hnd [->|Hin].
  - rewrite Z.eqb_refl. reflexivity.
  - inversion Hnd as [|? ? Hnotin Hnd']; subst.
    destruct (id x =? id r) eqn:Hx.
    + exfalso. apply Hnotin. apply Z.eqb_eq in Hx. rewrite Hx.
      apply in_map, Hin.
    + apply IH; assumption.
Qed.

(** A lookup is blind to changes made to the rows it does not select. *)
Lemma find_map_unselected (q sel : Todo -> bool) (f : Todo -> Todo)
  (l : list Todo) :
  (forall x, sel x = true -> q x = false /\ q (f x) = false) ->
  find q (map (fun x => if sel x then f x else x) l) = find q l.
Proof.
  intros H. induction l as [|x l IH]; simpl; [reflexivity|].
  destruct (sel x) eqn:Hx.
  - destruct (H x Hx) as [-> ->]. exact IH.
  - destruct (q x); [reflexivity|exact IH].
Qed.

Lemma find_filter_unselected (q sel : Todo -> bool) (l : list Todo) :
  (forall x, sel x = true -> q x = false) ->
  find q (filter (fun x => negb (sel x)) l) = find q l.
Proof.
  intros H. induction l as [|x l IH]; simpl; [reflexivity|].
  destruct (sel x) eqn:Hx; simpl.
  - rewrite (H x Hx). exact IH.
  - destruct (q x); [reflexivity|exact IH].
Qed.

Lemma where_id_disjoint (n : option Z) (j : Z) (x : Todo) :
  n <> Some j -> where_id n x = true -> where_id (Some j) x = false.
Proof.
  intros Hne Hx. apply where_id_true in Hx. subst n.
  simpl. apply Z.eqb_neq. congruence.
Qed.

Section FurtherProperties.

Variable Number : string -> option Z.
Variable numeric_of_text : string -> numeric.

Lemma snd_put_todo (idp : string) (data : jsobject) (s : store) :
  snd (put_todo Number numeric_of_text idp data s) =
  snd (update_todo numeric_of_text (bind_param (obj_get "task" data))
         (bind_param (obj_get "completed" data)) (Number idp) s).
Proof.
  unfold put_todo, updateTodo. cbn [fst snd].
  destruct (_ =? 0); reflexivity.
Qed.

Lemma snd_delete_todo_route (idp : string) (s : store) :
  snd (delete_todo_route Number idp s) = snd (delete_todo (Number idp) s).
Proof.
  unfold delete_todo_route, deleteTodo. cbn [fst snd].
  destruct (_ =? 0); reflexivity.
Qed.

(** X1: serving any request keeps [id] a key of the table with no id
    beyond the AUTOINCREMENT counter, and never lowers the counter. *)
Theorem app_keeps_key_and_counter (now : clock) (req : request) (s : store) :
  wf_store s ->
  wf_store (snd (app Number numeric_of_text now req s)) /\
  sequence s <= sequence (snd (app Number numeric_of_text now req s)).
Proof.
  intros Hwf. split; [apply app_preserves_wf, Hwf|].
  destruct req as [|idp|data|idp data|idp data|]; simpl; try lia.
  - unfold get_todo. destruct (getTodoById _ _); simpl; lia.
  - destruct (truthy (obj_get "task" data)) eqn:Ht.
    + destruct (post_todos_created numeric_of_text now data s Ht)
        as [t [c [_ [_ Hpost]]]].
      rewrite Hpost. simpl. lia.
    + unfold post_todos. rewrite Ht. simpl. lia.
  - rewrite snd_put_todo. simpl. lia.
  - rewrite snd_delete_todo_route. simpl. lia.
Qed.

(** X2: an id that was deleted stays gone: after DELETE /todos/:id of an
    existing row and a POST that creates a row, GET /todos/:id with the old
    id answers 404, the new row having a fresh id. *)
Theorem deleted_id_stays_gone
  (now : clock) (idp : string) (data : jsobject) (s : store) (r : Todo) :
  wf_store s -> getTodoById (Number idp) s = Some r ->
  truthy (obj_get "task" data) = true ->
  let s1 := snd (delete_todo_route Number idp s) in
  let s2 := snd (post_todos numeric_of_text now data s1) in
  status (fst (get_todo Number idp s2)) = 404 /\
  sequence s2 = sequence s + 1.
Proof.
  intros [_ Hle] Hr Ht s1 s2.
  assert (Hn : Number idp = Some (id r)).
  { apply where_id_true. apply (find_some _ _ Hr). }
  assert (Hin : In r (rows s)) by apply (find_some _ _ Hr).
  rewrite Forall_forall in Hle. specialize (Hle r Hin).
  destruct (post_todos_created numeric_of_text now data s1 Ht)
    as [t [c [_ [_ Hpost]]]].
  subst s2. rewrite Hpost. cbn [fst snd].
  subst s1. rewrite snd_delete_todo_route. cbn [snd delete_todo sequence rows].
  split; [|reflexivity].
  unfold get_todo, getTodoById, select_by_id. cbn [rows].
  rewrite find_app_one, find_filter_negb, Hn. simpl.
  replace (sequence s + 1 =? id r) with false; [reflexivity|].
  symmetry. apply Z.eqb_neq. lia.
Qed.

(** X4: in a well-formed store, GET /todos/:id with the id of a row of the
    table answers 200 with exactly that row and leaves the store as it
    is. *)
Theorem get_todo_finds_row (idp : string) (s : store) (r : Todo) :
  wf_store s -> In r (rows s) -> Number idp = Some (id r) ->
  get_todo Number idp s =
    (res_json 200 [("message", JStr "success"); ("data", json_of_Todo r)],
     s).
Proof.
  intros [Hnd _] Hin Hn. unfold get_todo, getTodoById, select_by_id.
  rewrite Hn, (find_where_id_In _ _ Hnd Hin). reflexivity.
Qed.

(** X5: PUT /todos/:id touches no other id: the row of every other id
    reads as before, and the PUT neither adds nor removes a row nor moves
    the counter, whatever the body and whether or not the id exists. *)
Theorem put_todo_frame (idp : string) (data : jsobject) (s : store) :
  let s' := snd (put_todo Number numeric_of_text idp data s) in
  (forall j, Number idp <> Some j ->
             getTodoById (Some j) s' = getTodoById (Some j) s) /\
  map id (rows s') = map id (rows s) /\
  map created_at (rows s') = map created_at (rows s) /\
  sequence s' = sequence s.
Proof.
  intros s'. subst s'. rewrite snd_put_todo. unfold update_todo.
  cbn [snd rows sequence]. split; [|split; [|split]].
  - intros j Hne. unfold getTodoById, select_by_id. cbn [rows].
    apply find_map_unselected. intros x Hx. split.
    + apply (where_id_disjoint _ _ _ Hne Hx).
    + apply (where_id_disjoint _ _ _ Hne Hx).
  - apply map_id_update.
  - induction (rows s) as [|x l IH]; simpl; [reflexivity|].
    rewrite IH. destruct (where_id (Number idp) x); reflexivity.
  - reflexivity.
Qed.

(** X6: DELETE /todos/:id touches no other id: the row of every other id
    reads as before and the counter stays; in a well-formed store the
    DELETE of an existing id removes exactly one row. *)
Theorem delete_todo_frame (idp : string) (s : store) :
  let s' := snd (delete_todo_route Number idp s) in
  (forall j, Number idp <> Some j ->
             getTodoById (Some j) s' = getTodoById (Some j) s) /\
  sequence s' = sequence s /\
  (forall r, wf_store s -> getTodoById (Number idp) s = Some r ->
             S (length (rows s')) = length (rows s)).
Proof.
  intros s'. subst s'. rewrite snd_delete_todo_route. unfold delete_todo.
  cbn [snd rows sequence]. split; [|split].
  - intros j Hne. unfold getTodoById, select_by_id. cbn [rows].
    apply find_filter_unselected. intros x Hx.
    apply (where_id_disjoint _ _ _ Hne Hx).
  - reflexivity.
  - intros r [Hnd _] Hr.
    pose proof (filter_length (where_id (Number idp)) (rows s)) as Hlen.
    rewrite (filter_where_id_unique _ _ _ Hnd Hr) in Hlen.
    simpl in Hlen. exact Hlen.
Qed.

Lemma update_row_idempotent (t c : sqlval) (r : Todo) :
  update_row numeric_of_text t c (update_row numeric_of_text t c r)
  = update_row numeric_of_text t c r.
Proof.
  unfold update_row. simpl.
  destruct (text_affinity t); destruct (numeric_affinity numeric_of_text c);
    reflexivity.
Qed.

(** Running the same UPDATE again selects the same rows and changes
    nothing more. *)
Lemma update_todo_again (t c : sqlval) (n : option Z) (s : store) :
  update_todo numeric_of_text t c n
    (snd (update_todo numeric_of_text t c n s))
  = update_todo numeric_of_text t c n s.
Proof.
  unfold update_todo. cbn [snd rows sequence]. f_equal.
  - f_equal. induction (rows s) as [|x l IH]; simpl; [reflexivity|].
    destruct (where_id n x) eqn:Hx.
    + rewrite where_id_update_row, Hx. simpl. f_equal. exact IH.
    + rewrite Hx. exact IH.
  - f_equal. induction (rows s) as [|x l IH]; simpl; [reflexivity|].
    rewrite IH. f_equal.
    destruct (where_id n x) eqn:Hx.
    + rewrite where_id_update_row, Hx. apply update_row_idempotent.
    + rewrite Hx. reflexivity.
Qed.

(** X7: PUT /todos/:id is idempotent: the same request sent again gets the
    same response and leaves the store the first one left. *)
Theorem put_todo_idempotent (idp : string) (data : jsobject) (s : store) :
  put_todo Number numeric_of_text idp data
    (snd (put_todo Number numeric_of_text idp data s))
  = put_todo Number numeric_of_text idp data s.
Proof.
  rewrite snd_put_todo. unfold put_todo, updateTodo.
  rewrite update_todo_again. reflexivity.
Qed.

Lemma update_row_null (r : Todo) :
  update_row numeric_of_text SNull SNull r = r.
Proof. destruct r; reflexivity. Qed.

(** X8: a PUT /todos/:id whose body has neither [task] nor [completed]
    changes nothing in the store, and still answers 200 with the row and
    [changes: 1] when the id exists in a well-formed store. *)
Theorem put_without_fields_keeps_store
  (idp : string) (data : jsobject) (s : store) :
  obj_get "task" data = None -> obj_get "completed" data = None ->
  snd (put_todo Number numeric_of_text idp data s) = s /\
  (forall r, wf_store s -> getTodoById (Number idp) s = Some r ->
     fst (put_todo Number numeric_of_text idp data s) =
       res_json 200 [("message", JStr "success"); ("data", json_of_Todo r);
                     ("changes", JNum 1)]).
Proof.
  intros Ht Hc.
  assert (Hs : snd (update_todo numeric_of_text SNull SNull (Number idp) s)
               = s).
  { unfold update_todo. cbn [snd].
    assert (Hmap : forall l : list Todo,
              map (fun x => if where_id (Number idp) x
                            then update_row numeric_of_text SNull SNull x
                            else x) l = l).
    { induction l as [|x l IH]; simpl; [reflexivity|].
      rewrite IH, update_row_null.
      destruct (where_id (Number idp) x); reflexivity. }
    rewrite Hmap. apply store_eta. }
  split.
  - rewrite snd_put_todo, Ht, Hc. exact Hs.
  - intros r [Hnd _] Hr.
    destruct (put_todo_existing Number numeric_of_text idp data s r Hr)
      as [_ Hput].
    rewrite Hput, Ht, Hc. cbn [fst bind_param].
    rewrite update_row_null. unfold update_todo. cbn [fst].
    rewrite (filter_where_id_unique _ _ _ Hnd Hr). reflexivity.
Qed.

(** X9: PUT /todos/:id with a text as [task] stores that text, the empty
    text included (the guard against an empty task is on POST only): the GET
    that follows shows it. *)
Theorem put_task_then_get
  (idp : string) (data : jsobject) (T : string) (s : store) (r : Todo) :
  getTodoById (Number idp) s = Some r ->
  obj_get "task" data = Some (JStr T) ->
  let got := get_todo Number idp
               (snd (put_todo Number numeric_of_text idp data s)) in
  status (fst got) = 200 /\
  data_field "task" (fst got) = Some (JStr T) /\
  data_field "id" (fst got) = Some (JNum (id r)) /\
  data_field "created_at" (fst got) = Some (JStr (created_at r)).
Proof.
  intros Hr Ht got.
  destruct (put_todo_existing Number numeric_of_text idp data s r Hr)
    as [Hget _].
  subst got. rewrite snd_put_todo. unfold get_todo.
  rewrite Hget, Ht. repeat split.
Qed.

(** X10: POST /todos either refuses or creates, and never answers 500: a
    falsy [task] (absent, [null], the empty text, 0, [false]) gives 400 and
    the store as it was; any other [task] gives 201 and the table with one
    row appended under the id after the counter, stamped with SQLite's
    CURRENT_TIMESTAMP, a text [task] being stored as it is. *)
Theorem post_todos_refuses_or_creates
  (now : clock) (data : jsobject) (s : store) :
  let r := post_todos numeric_of_text now data s in
  if truthy (obj_get "task" data)
  then status (fst r) = 201 /\
       exists t c,
         snd r = mkStore (rows s ++ [mkTodo (sequence s + 1) t c
                                            (CURRENT_TIMESTAMP now)])%list
                         (sequence s + 1) /\
         match obj_get "task" data with
         | Some (JStr T) => t = T
         | _ => True
         end
  else status (fst r) = 400 /\ snd r = s.
Proof.
  intros r. subst r.
  destruct (truthy (obj_get "task" data)) eqn:Ht.
  - destruct (post_todos_created numeric_of_text now data s Ht)
      as [t [c [Htext [_ Hpost]]]].
    rewrite Hpost. split; [reflexivity|].
    exists t, c. split; [reflexivity|].
    destruct (obj_get "task" data) as [[| | |T| |]|]; trivial.
    simpl in Htext. congruence.
  - unfold post_todos. rewrite Ht. split; reflexivity.
Qed.

(** X11: the [data] of the 201 of POST /todos echoes the request body:
    every property of the body other than [completed] and [created_at]
    comes back as sent (properties the table has no column for included),
    [completed] comes back as sent unless it is absent or [null], when it is
    [false], and a [created_at] of the body is replaced. *)
Theorem post_response_echoes_body
  (now : clock) (data : jsobject) (s : store) (k : string) :
  truthy (obj_get "task" data) = true ->
  let r := fst (post_todos numeric_of_text now data s) in
  (k <> "id" -> k <> "completed" -> k <> "created_at" ->
   data_field k r = obj_get k data) /\
  data_field "completed" r =
    Some (nullish_or (obj_get "completed" data) (JBool false)) /\
  data_field "task" r = obj_get "task" data.
Proof.
  intros Ht r.
  destruct (post_todos_created numeric_of_text now data s Ht)
    as [t [c [_ [_ Hpost]]]].
  subst r. rewrite Hpost. unfold data_field, body_field.
  cbn [fst body res_json obj_get String.eqb Ascii.eqb Bool.eqb].
  split; [|split].
  - intros Hid Hc Hts.
    rewrite !obj_get_set_other, obj_get_spread by assumption.
    destruct (obj_get k data); [reflexivity|].
    simpl. apply String.eqb_neq in Hid. rewrite Hid. reflexivity.
  - rewrite obj_get_set_other by discriminate.
    apply obj_get_set_same.
  - rewrite !obj_get_set_other, obj_get_spread by discriminate.
    destruct (obj_get "task" data); [reflexivity|discriminate].
Qed.

(** X19: PUT /todos/:id with a boolean as [completed] stores 1 for [true]
    and 0 for [false]; the PUT's own 200 and the GET that follows both show
    the number, and the task text is as the body's [task] decides. *)
Theorem put_completed_then_get
  (idp : string) (data : jsobject) (b : bool) (s : store) (r : Todo) :
  getTodoById (Number idp) s = Some r ->
  obj_get "completed" data = Some (JBool b) ->
  let put := put_todo Number numeric_of_text idp data s in
  let got := get_todo Number idp (snd put) in
  status (fst put) = 200 /\
  data_field "completed" (fst put) = Some (JNum (if b then 1 else 0)) /\
  status (fst got) = 200 /\
  data_field "completed" (fst got) = Some (JNum (if b then 1 else 0)).
Proof.
  intros Hr Hc put got.
  destruct (put_todo_existing Number numeric_of_text idp data s r Hr)
    as [Hget Hput].
  subst got put. rewrite snd_put_todo. unfold get_todo. rewrite Hget, Hput.
  rewrite Hc. destruct b; repeat split.
Qed.

(** X20: in a PUT body a [null] counts as an omission: a [task] that is
    [null] keeps the stored task text and a [completed] that is [null] keeps
    the stored flag. *)
Theorem put_null_field_unchanged
  (idp : string) (data : jsobject) (s : store) (r : Todo) :
  getTodoById (Number idp) s = Some r ->
  exists r' : Todo,
    getTodoById (Number idp)
      (snd (put_todo Number numeric_of_text idp data s)) = Some r' /\
    (obj_get "task" data = Some JNull -> task r' = task r) /\
    (obj_get "completed" data = Some JNull -> completed r' = completed r).
Proof.
  intros Hr.
  destruct (put_todo_existing Number numeric_of_text idp data s r Hr)
    as [Hget _].
  eexists. rewrite snd_put_todo. split; [exact Hget|]. split.
  - intros H. rewrite H. reflexivity.
  - intros H. rewrite H. reflexivity.
Qed.

(* ----------------------------------------------------------------- *)
(** *** Further properties of the adapter *)

(** The POST the [add] tool sends, for a task text that is not empty. *)
Lemma post_task_only (now : clock) (t : string) (s : store) :
  t <> "" ->
  post_todos numeric_of_text now [("task", JStr t)] s =
  (res_json 201
     [("message", JStr "success");
      ("data", JObj [("id", JNum (sequence s + 1)); ("task", JStr t);
                     ("completed", JBool false);
                     ("created_at", JStr (toISOString now))])],
   mkStore (rows s ++ [mkTodo (sequence s + 1) t (NInt 0)
                              (CURRENT_TIMESTAMP now)])%list
           (sequence s + 1)).
Proof.
  intros Ht. apply String.eqb_neq in Ht.
  unfold post_todos. simpl. rewrite Ht. reflexivity.
Qed.

(** X12: the [get] tool, the service reading the id back from the path:
    for an id without a row it fails with a type error (the 404 body has no
    [data]); for an id with a row it returns the text and one link whose
    description is the task text as stored, without quotes.  The store is
    only read. *)
Theorem get_tool_link_or_type_error (now : clock) (i : Z) (s : store) :
  Number (String_of_int i) = Some i ->
  (getTodoById (Some i) s = None ->
   get_tool Number numeric_of_text now i s = (Throw TypeError, s)) /\
  (forall r, getTodoById (Some i) s = Some r ->
   get_tool Number numeric_of_text now i s =
     (Ok (Content [text_content "found todo item" false;
                   resource_link ("todo://item/" ++ String_of_int i)
                                 (String_of_int i) (Some (JStr (task r)))]),
      s)).
Proof.
  intros Hn. unfold get_tool, fetchHelper. simpl app. unfold get_todo.
  rewrite Hn. split.
  - intros H. rewrite H. reflexivity.
  - intros r H. rewrite H. reflexivity.
Qed.

(** X13: the [add] tool: with the empty text the service answers 400, the
    tool fails with a type error and nothing is stored; with any other text
    it returns one link for the new id, described by the text, and the table
    has one more row holding that text, not completed. *)
Theorem add_tool_creates_or_fails (now : clock) (t : string) (s : store) :
  (t = "" -> add_tool Number numeric_of_text now t s = (Throw TypeError, s))
  /\
  (t <> "" ->
   add_tool Number numeric_of_text now t s =
     (Ok (Content [resource_link
                     ("todo://item/" ++ String_of_int (sequence s + 1))
                     (String_of_int (sequence s + 1)) (Some (JStr t))]),
      mkStore (rows s ++ [mkTodo (sequence s + 1) t (NInt 0)
                                 (CURRENT_TIMESTAMP now)])%list
              (sequence s + 1))).
Proof.
  split.
  - intros ->. reflexivity.
  - intros Ht. unfold add_tool, fetchHelper. simpl app.
    rewrite (post_task_only now t s Ht). reflexivity.
Qed.

(** X14: the [delete] tool, the service reading the id back from the path:
    for an id without a row it throws "Bad request - 404 - Not Found" and
    the store stays; for an id with a row it confirms and the row is
    gone. *)
Theorem delete_tool_removes_or_fails (now : clock) (i : Z) (s : store) :
  Number (String_of_int i) = Some i ->
  (getTodoById (Some i) s = None ->
   delete_tool Number numeric_of_text now i s =
     (Throw (Error "Bad request - 404 - Not Found"), s)) /\
  (forall r, getTodoById (Some i) s = Some r ->
   fst (delete_tool Number numeric_of_text now i s) =
     Ok (Content [text_content "deleted successfully" true]) /\
   getTodoById (Some i) (snd (delete_tool Number numeric_of_text now i s))
     = None).
Proof.
  intros Hn. unfold delete_tool, fetchHelper. simpl app.
  unfold delete_todo_route, deleteTodo. rewrite Hn. split.
  - intros H. rewrite (delete_todo_none _ _ H). reflexivity.
  - intros r H.
    assert (Hch : (fst (delete_todo (Some i) s) =? 0) = false).
    { apply Z.eqb_neq. unfold delete_todo. simpl.
      pose proof (find_some_filter _ _ _ H). lia. }
    cbn [fst snd]. rewrite Hch. cbn [fst snd]. split; [reflexivity|].
    unfold delete_todo, getTodoById, select_by_id. cbn [snd rows].
    apply find_filter_negb.
Qed.

(** X15: the [update] tool, the service reading the id back from the path:
    for an id without a row it throws "Bad request - 404 - Not Found" and
    the store stays; with a task text that is not empty, on an existing id,
    the text is stored and the tool returns the updated row. *)
Theorem update_tool_stores_or_fails
  (now : clock) (i : Z) (t : option string) (c : option bool) (s : store) :
  Number (String_of_int i) = Some i ->
  (getTodoById (Some i) s = None ->
   update_tool Number numeric_of_text now i t c s =
     (Throw (Error "Bad request - 404 - Not Found"), s)) /\
  (forall r T, t = Some T -> T <> "" -> getTodoById (Some i) s = Some r ->
   exists r' : Todo,
     getTodoById (Some i)
       (snd (update_tool Number numeric_of_text now i t c s)) = Some r' /\
     fst (update_tool Number numeric_of_text now i t c s)
       = Ok (Raw (Some (json_of_Todo r'))) /\
     task r' = T /\ id r' = id r /\ created_at r' = created_at r).
Proof.
  intros Hn. split.
  - intros H. unfold update_tool, fetchHelper. simpl app.
    unfold put_todo, updateTodo. rewrite Hn.
    rewrite (update_todo_none numeric_of_text _ _ _ _ H). reflexivity.
  - intros r T -> HT Hr. rewrite <- Hn in Hr.
    destruct (put_todo_existing Number numeric_of_text (String_of_int i)
                (update_body (Some T) c) s r Hr) as [Hget Hput].
    rewrite Hn in Hget, Hput.
    eexists. unfold update_tool, fetchHelper. simpl app.
    rewrite Hput. cbn [fst snd]. split; [exact Hget|].
    split; [reflexivity|].
    assert (Hlen : (String.length T =? 0)%nat = false).
    { destruct T; [congruence|reflexivity]. }
    unfold update_body. rewrite Hlen.
    destruct c as [[|]|]; repeat split.
Qed.

(** X16: the resource [todo://all] never fails against the service and
    leaves the store as it is.  The resource [todo://item/{id}] writes [id]
    into the URL: when the service routes that URL to GET /todos/:id, the
    resource returns the JSON text of the answer, the 404 body for an id
    without a row included, and leaves the store as it is; when the
    framework answers on its own with a body that is not JSON, the resource
    fails with the parse failure. *)
Theorem resources_return_service_text
  (GET_path : string -> request + response)
  (now : clock) (id idp : string) (s : store) :
  (exists txt, all_resource Number numeric_of_text now s = (Ok txt, s)) /\
  (GET_path ("/todos/" ++ id) = inl (GET_todos_id idp) ->
   (getTodoById (Number idp) s = None ->
    item_resource Number numeric_of_text GET_path now id s =
      (Ok ("{" ++ json_quote "message" ++ ":"
               ++ json_quote "No to-do found with that ID." ++ "}"), s)) /\
   (forall r, getTodoById (Number idp) s = Some r ->
    item_resource Number numeric_of_text GET_path now id s =
      (Ok (JSON_stringify (JObj [("message", JStr "success");
                                 ("data", json_of_Todo r)])), s))) /\
  (forall res txt,
     GET_path ("/todos/" ++ id) = inr res -> body res = BodyText txt ->
     item_resource Number numeric_of_text GET_path now id s =
       (Throw SyntaxError, s)).
Proof.
  split; [|split].
  - eexists. reflexivity.
  - intros Hroute. unfold item_resource. rewrite Hroute.
    unfold fetchHelper. simpl app. unfold get_todo. split.
    + intros H. rewrite H. reflexivity.
    + intros r H. rewrite H. reflexivity.
  - intros res txt Hroute Hbody. unfold item_resource, json_of_Response.
    rewrite Hroute. cbn [fst snd res_body]. rewrite Hbody. reflexivity.
Qed.

Lemma string_length_append (a b : string) :
  String.length (a ++ b) = (String.length a + String.length b)%nat.
Proof.
  induction a as [|x a IH]; simpl; [reflexivity|]. rewrite IH. reflexivity.
Qed.

Lemma json_escape_char_length (c : ascii) :
  (1 <= String.length (json_escape_char c))%nat.
Proof.
  unfold json_escape_char.
  repeat match goal with
         | |- context [if ?b then _ else _] => destruct b
         end; simpl; lia.
Qed.

Lemma json_escape_length (s : string) :
  (String.length s <= String.length (json_escape s))%nat.
Proof.
  induction s as [|c s IH]; simpl; [lia|].
  rewrite string_length_append.
  pose proof (json_escape_char_length c). lia.
Qed.

Lemma json_escape_plain (s : string) :
  plain_text s = true -> json_escape s = s.
Proof.
  induction s as [|c s IH]; simpl; [reflexivity|].
  intros H. apply andb_true_iff in H. destruct H as [Hc Hs].
  rewrite (IH Hs). unfold plain_char in Hc.
  apply andb_true_iff in Hc. destruct Hc as [Hc Hctl].
  apply andb_true_iff in Hc. destruct Hc as [Hq Hb].
  apply negb_true_iff in Hq, Hb, Hctl.
  unfold json_escape_char. rewrite Hq, Hb.
  apply Nat.ltb_ge in Hctl.
  repeat match goal with
         | |- context [Nat.eqb ?a ?b] =>
             destruct (Nat.eqb_spec a b); [lia|]
         end.
  replace (Nat.ltb (nat_of_ascii c) 32) with false
    by (symmetry; apply Nat.ltb_ge; exact Hctl).
  reflexivity.
Qed.

(** X17: the description the [list] tool gives a row is never the task
    text itself: it is at least two characters longer; for a task text
    without double quote, backslash or control character it is the text
    between two double quotes. *)
Theorem list_link_description (r : Todo) :
  (forall uri name,
     link_of_item (json_of_Todo r)
     <> Ok (resource_link uri name (Some (JStr (task r))))) /\
  (plain_text (task r) = true ->
   link_of_item (json_of_Todo r) =
     Ok (resource_link ("todo://item/" ++ String_of_int (id r))
                       (String_of_int (id r))
                       (Some (JStr (String dquote
                                      (task r ++ String dquote "")))))).
Proof.
  rewrite link_of_item_Todo. unfold link_of_Todo, item_uri. split.
  - intros uri name H. injection H as _ _ H.
    apply (f_equal String.length) in H. unfold json_quote in H.
    simpl in H. rewrite string_length_append in H. simpl in H.
    pose proof (json_escape_length (task r)). lia.
  - intros H. unfold json_quote. rewrite (json_escape_plain _ H).
    reflexivity.
Qed.

(** X18: what the [add] tool links to is what the [get] tool finds: after
    adding a task text that is not empty, the [get] tool called with the new
    id returns a link with the uri, name and description of the link the
    [add] tool returned. *)
Theorem add_tool_then_get_tool (now later : clock) (t : string) (s : store) :
  t <> "" -> wf_store s ->
  Number (String_of_int (sequence s + 1)) = Some (sequence s + 1) ->
  let added := add_tool Number numeric_of_text now t s in
  let link := resource_link
                ("todo://item/" ++ String_of_int (sequence s + 1))
                (String_of_int (sequence s + 1)) (Some (JStr t)) in
  fst added = Ok (Content [link]) /\
  get_tool Number numeric_of_text later (sequence s + 1) (snd added) =
    (Ok (Content [text_content "found todo item" false; link]), snd added).
Proof.
  intros Ht Hwf Hn added link. subst added link.
  unfold add_tool, fetchHelper. simpl app.
  rewrite (post_task_only now t s Ht). cbn [fst snd].
  split; [reflexivity|].
  unfold get_tool, fetchHelper. simpl app. unfold get_todo.
  rewrite Hn, (getTodoById_appended _ _ _ _ Hwf). reflexivity.
Qed.

End FurtherProperties.

(* ================================================================= *)
(** ** Closed examples of the further properties *)

(** X1, on the sample store and a POST. *)
Lemma app_keeps_key_and_counter_witness :
  wf_store sample_store /\
  sequence sample_store <=
  sequence (snd (app decimal_integer numeric_of_decimal noon
                   (POST_todos [("task", JStr "feed cat")]) sample_store)).
Proof.
  split; [apply wf_sample_store|].
  apply (app_keeps_key_and_counter decimal_integer numeric_of_decimal noon
           (POST_todos [("task", JStr "feed cat")]) sample_store
           wf_sample_store).
Defined.

(** X2, on the sample store. *)
Lemma deleted_id_stays_gone_witness :
  wf_store sample_store /\
  getTodoById (decimal_integer "1") sample_store = Some milk /\
  truthy (obj_get "task" [("task", JStr "feed cat")]) = true /\
  status (fst (get_todo decimal_integer "1"
                 (snd (post_todos numeric_of_decimal noon
                         [("task", JStr "feed cat")]
                         (snd (delete_todo_route decimal_integer "1"
                                 sample_store)))))) = 404.
Proof.
  split; [apply wf_sample_store|]. split; [reflexivity|].
  split; [reflexivity|].
  apply (deleted_id_stays_gone decimal_integer numeric_of_decimal noon "1"
           [("task", JStr "feed cat")] sample_store milk wf_sample_store
           eq_refl eq_refl).
Defined.

(** X4, on the sample store. *)
Lemma get_todo_finds_row_witness :
  wf_store sample_store /\ In dog (rows sample_store) /\
  decimal_integer "2" = Some (id dog) /\
  status (fst (get_todo decimal_integer "2" sample_store)) = 200.
Proof.
  assert (Hin : In dog (rows sample_store)) by (right; left; reflexivity).
  split; [apply wf_sample_store|]. split; [exact Hin|].
  split; [reflexivity|].
  rewrite (get_todo_finds_row decimal_integer "2" sample_store dog
             wf_sample_store Hin eq_refl).
  reflexivity.
Defined.

(** X5, on the sample store: a PUT on id 1 leaves the row of id 2. *)
Lemma put_todo_frame_witness :
  decimal_integer "1" <> Some 2 /\
  getTodoById (Some 2)
    (snd (put_todo decimal_integer numeric_of_decimal "1"
            [("task", JStr "buy oat milk"); ("completed", JBool true)]
            sample_store)) = Some dog.
Proof.
  split; [discriminate|].
  rewrite (proj1 (put_todo_frame decimal_integer numeric_of_decimal "1"
                    [("task", JStr "buy oat milk");
                     ("completed", JBool true)] sample_store) 2);
    [reflexivity|discriminate].
Defined.

(** X6, on the sample store: a DELETE of id 1 leaves the row of id 2 and
    removes one row. *)
Lemma delete_todo_frame_witness :
  decimal_integer "1" <> Some 2 /\ wf_store sample_store /\
  getTodoById (decimal_integer "1") sample_store = Some milk /\
  getTodoById (Some 2)
    (snd (delete_todo_route decimal_integer "1" sample_store)) = Some dog /\
  S (length (rows (snd (delete_todo_route decimal_integer "1"
                          sample_store)))) = length (rows sample_store).
Proof.
  destruct (delete_todo_frame decimal_integer "1" sample_store)
    as [Hother [_ Hone]].
  split; [discriminate|]. split; [apply wf_sample_store|].
  split; [reflexivity|]. split.
  - rewrite (Hother 2); [reflexivity|discriminate].
  - apply (Hone milk wf_sample_store eq_refl).
Defined.

(** X8, on the sample store and an empty body. *)
Lemma put_without_fields_keeps_store_witness :
  obj_get "task" [] = None /\ obj_get "completed" [] = None /\
  wf_store sample_store /\
  getTodoById (decimal_integer "2") sample_store = Some dog /\
  snd (put_todo decimal_integer numeric_of_decimal "2" [] sample_store)
    = sample_store /\
  status (fst (put_todo decimal_integer numeric_of_decimal "2" []
                 sample_store)) = 200.
Proof.
  destruct (put_without_fields_keeps_store decimal_integer numeric_of_decimal
              "2" [] sample_store eq_refl eq_refl) as [Hs Hr].
  split; [reflexivity|]. split; [reflexivity|].
  split; [apply wf_sample_store|]. split; [reflexivity|].
  split; [exact Hs|].
  rewrite (Hr dog wf_sample_store eq_refl). reflexivity.
Defined.

(** X9, on the sample store: a PUT may store the empty text. *)
Lemma put_task_then_get_witness :
  getTodoById (decimal_integer "1") sample_store = Some milk /\
  obj_get "task" [("task", JStr "")] = Some (JStr "") /\
  data_field "task"
    (fst (get_todo decimal_integer "1"
            (snd (put_todo decimal_integer numeric_of_decimal "1"
                    [("task", JStr "")] sample_store))))
  = Some (JStr "").
Proof.
  split; [reflexivity|]. split; [reflexivity|].
  apply (put_task_then_get decimal_integer numeric_of_decimal "1"
           [("task", JStr "")] "" sample_store milk eq_refl eq_refl).
Defined.

(** X11, for a body with a property the table has no column for. *)
Lemma post_response_echoes_body_witness :
  truthy (obj_get "task" [("task", JStr "feed cat"); ("note", JStr "dry")])
    = true /\
  "note" <> "id" /\ "note" <> "completed" /\ "note" <> "created_at" /\
  data_field "note"
    (fst (post_todos numeric_of_decimal noon
            [("task", JStr "feed cat"); ("note", JStr "dry")] sample_store))
  = Some (JStr "dry").
Proof.
  split; [reflexivity|]. split; [discriminate|]. split; [discriminate|].
  split; [discriminate|].
  rewrite (proj1 (post_response_echoes_body numeric_of_decimal noon
                    [("task", JStr "feed cat"); ("note", JStr "dry")]
                    sample_store "note" eq_refl));
    [reflexivity|discriminate|discriminate|discriminate].
Defined.

(** X12, on the sample store: id 7 has no row, id 2 has one. *)
Lemma get_tool_link_or_type_error_witness :
  decimal_integer (String_of_int 7) = Some 7 /\
  getTodoById (Some 7) sample_store = None /\
  fst (get_tool decimal_integer numeric_of_decimal noon 7 sample_store)
    = Throw TypeError /\
  decimal_integer (String_of_int 2) = Some 2 /\
  getTodoById (Some 2) sample_store = Some dog /\
  fst (get_tool decimal_integer numeric_of_decimal noon 2 sample_store)
    = Ok (Content [text_content "found todo item" false;
                   resource_link "todo://item/2" "2"
                                 (Some (JStr "walk dog"))]).
Proof.
  split; [reflexivity|]. split; [reflexivity|]. split.
  - rewrite (proj1 (get_tool_link_or_type_error decimal_integer
                      numeric_of_decimal noon 7 sample_store eq_refl)
               eq_refl).
    reflexivity.
  - split; [reflexivity|]. split; [reflexivity|].
    rewrite (proj2 (get_tool_link_or_type_error decimal_integer
                      numeric_of_decimal noon 2 sample_store eq_refl)
               dog eq_refl).
    reflexivity.
Defined.

(** X13, on the sample store, for the empty text and for a task text. *)
Lemma add_tool_creates_or_fails_witness :
  fst (add_tool decimal_integer numeric_of_decimal noon "" sample_store)
    = Throw TypeError /\
  "feed cat" <> "" /\
  fst (add_tool decimal_integer numeric_of_decimal noon "feed cat"
         sample_store)
    = Ok (Content [resource_link "todo://item/3" "3"
                                 (Some (JStr "feed cat"))]).
Proof.
  destruct (add_tool_creates_or_fails decimal_integer numeric_of_decimal noon
              "" sample_store) as [Hempty _].
  destruct (add_tool_creates_or_fails decimal_integer numeric_of_decimal noon
              "feed cat" sample_store) as [_ Htext].
  split; [rewrite (Hempty eq_refl); reflexivity|].
  split; [discriminate|].
  rewrite Htext; [reflexivity|discriminate].
Defined.

(** X14, on the sample store. *)
Lemma delete_tool_removes_or_fails_witness :
  decimal_integer (String_of_int 7) = Some 7 /\
  getTodoById (Some 7) sample_store = None /\
  delete_tool decimal_integer numeric_of_decimal noon 7 sample_store
    = (Throw (Error "Bad request - 404 - Not Found"), sample_store) /\
  decimal_integer (String_of_int 1) = Some 1 /\
  getTodoById (Some 1) sample_store = Some milk /\
  getTodoById (Some 1)
    (snd (delete_tool decimal_integer numeric_of_decimal noon 1
            sample_store)) = None.
Proof.
  split; [reflexivity|]. split; [reflexivity|]. split.
  - apply (proj1 (delete_tool_removes_or_fails decimal_integer
                    numeric_of_decimal noon 7 sample_store eq_refl)
             eq_refl).
  - split; [reflexivity|]. split; [reflexivity|].
    apply (proj2 (delete_tool_removes_or_fails decimal_integer
                    numeric_of_decimal noon 1 sample_store eq_refl)
             milk eq_refl).
Defined.

(** X15, on the sample store. *)
Lemma update_tool_stores_or_fails_witness :
  decimal_integer (String_of_int 7) = Some 7 /\
  getTodoById (Some 7) sample_store = None /\
  update_tool decimal_integer numeric_of_decimal noon 7 (Some "x") None
    sample_store
    = (Throw (Error "Bad request - 404 - Not Found"), sample_store) /\
  decimal_integer (String_of_int 1) = Some 1 /\ "buy oat milk" <> "" /\
  getTodoById (Some 1) sample_store = Some milk /\
  exists r',
    getTodoById (Some 1)
      (snd (update_tool decimal_integer numeric_of_decimal noon 1
              (Some "buy oat milk") None sample_store)) = Some r' /\
    task r' = "buy oat milk".
Proof.
  split; [reflexivity|]. split; [reflexivity|]. split.
  - apply (proj1 (update_tool_stores_or_fails decimal_integer
                    numeric_of_decimal noon 7 (Some "x") None sample_store
                    eq_refl) eq_refl).
  - split; [reflexivity|]. split; [discriminate|]. split; [reflexivity|].
    assert (Hne : "buy oat milk" <> "") by discriminate.
    destruct (proj2 (update_tool_stores_or_fails decimal_integer
                       numeric_of_decimal noon 1 (Some "buy oat milk") None
                       sample_store eq_refl)
                milk "buy oat milk" eq_refl Hne eq_refl)
      as [r' [Hget [_ [Htask _]]]].
    exists r'. split; [exact Hget|exact Htask].
Defined.

(** X16, on the sample store: id 7 has no row, id 2 has one; and a
    framework that answers a malformed escape on its own. *)
Lemma resources_return_service_text_witness :
  literal_path ("/todos/" ++ "7") = inl (GET_todos_id "7") /\
  getTodoById (decimal_integer "7") sample_store = None /\
  (exists txt,
     item_resource decimal_integer numeric_of_decimal literal_path noon "7"
       sample_store = (Ok txt, sample_store)) /\
  literal_path ("/todos/" ++ "2") = inl (GET_todos_id "2") /\
  getTodoById (decimal_integer "2") sample_store = Some dog /\
  (exists txt,
     item_resource decimal_integer numeric_of_decimal literal_path noon "2"
       sample_store = (Ok txt, sample_store)) /\
  item_resource decimal_integer numeric_of_decimal
    (fun _ => inr (mkResponse 400 (BodyText "Bad Request"))) noon "%"
    sample_store = (Throw SyntaxError, sample_store).
Proof.
  split; [reflexivity|]. split; [reflexivity|]. split.
  { eexists.
    apply (proj1 (proj1 (proj2 (resources_return_service_text
                                  decimal_integer numeric_of_decimal
                                  literal_path noon "7" "7" sample_store))
                          eq_refl) eq_refl). }
  split; [reflexivity|]. split; [reflexivity|]. split.
  { eexists.
    apply (proj2 (proj1 (proj2 (resources_return_service_text
                                  decimal_integer numeric_of_decimal
                                  literal_path noon "2" "2" sample_store))
                          eq_refl) dog eq_refl). }
  apply (proj2 (proj2 (resources_return_service_text
                         decimal_integer numeric_of_decimal
                         (fun _ => inr (mkResponse 400
                                          (BodyText "Bad Request")))
                         noon "%" "" sample_store))
           (mkResponse 400 (BodyText "Bad Request")) "Bad Request"
           eq_refl eq_refl).
Defined.

(** X17, for the row [milk]. *)
Lemma list_link_description_witness :
  plain_text (task milk) = true /\
  link_of_item (json_of_Todo milk) =
    Ok (resource_link "todo://item/1" "1"
          (Some (JStr (String dquote ("buy milk" ++ String dquote ""))))).
Proof.
  split; [reflexivity|].
  apply (proj2 (list_link_description milk) eq_refl).
Defined.

(** X18, on the sample store. *)
Lemma add_tool_then_get_tool_witness :
  "feed cat" <> "" /\ wf_store sample_store /\
  decimal_integer (String_of_int (sequence sample_store + 1))
    = Some (sequence sample_store + 1) /\
  fst (get_tool decimal_integer numeric_of_decimal noon 3
         (snd (add_tool decimal_integer numeric_of_decimal morning
                 "feed cat" sample_store)))
  = Ok (Content [text_content "found todo item" false;
                 resource_link "todo://item/3" "3"
                               (Some (JStr "feed cat"))]).
Proof.
  assert (Hne : "feed cat" <> "") by discriminate.
  split; [exact Hne|]. split; [apply wf_sample_store|].
  split; [reflexivity|].
  destruct (add_tool_then_get_tool decimal_integer numeric_of_decimal
              morning noon "feed cat" sample_store Hne wf_sample_store
              eq_refl) as [_ Hget].
  simpl sequence in Hget. change (2 + 1) with 3 in Hget.
  rewrite Hget. reflexivity.
Defined.

(** X19, on the sample store. *)
Lemma put_completed_then_get_witness :
  getTodoById (decimal_integer "1") sample_store = Some milk /\
  obj_get "completed" [("completed", JBool true)] = Some (JBool true) /\
  data_field "completed"
    (fst (get_todo decimal_integer "1"
            (snd (put_todo decimal_integer numeric_of_decimal "1"
                    [("completed", JBool true)] sample_store))))
  = Some (JNum 1).
Proof.
  split; [reflexivity|]. split; [reflexivity|].
  apply (put_completed_then_get decimal_integer numeric_of_decimal "1"
           [("completed", JBool true)] true sample_store milk eq_refl
           eq_refl).
Defined.

(** X20, on the sample store and the body the [update] tool sends for an
    absent task. *)
Lemma put_null_field_unchanged_witness :
  getTodoById (decimal_integer "1") sample_store = Some milk /\
  obj_get "task" [("task", JNull); ("completed", JBool true)] = Some JNull /\
  exists r',
    getTodoById (decimal_integer "1")
      (snd (put_todo decimal_integer numeric_of_decimal "1"
              [("task", JNull); ("completed", JBool true)] sample_store))
      = Some r' /\
    task r' = "buy milk".
Proof.
  split; [reflexivity|]. split; [reflexivity|].
  destruct (put_null_field_unchanged decimal_integer numeric_of_decimal "1"
              [("task", JNull); ("completed", JBool true)] sample_store milk
              eq_refl) as [r' [Hget [Htask _]]].
  exists r'. split; [exact Hget|]. apply Htask. reflexivity.
Defined.
